(** * Verification of tortoise-orm's psycopg client

    A shallow embedding of [tortoise/backends/psycopg/client.py]:
    the pooled client [PsycopgClient], its [TransactionWrapper], the
    exception translator, and the coroutines that open, close and expire
    the connection pool.

    Coroutines are modelled as trees of atomic segments: an [Await] node
    is a suspension point of the event loop, everything between two such
    nodes runs without interleaving.  The driver (psycopg, psycopg_pool)
    is an oracle answering each call. *)

From Stdlib Require Import ZArith List Bool.
From stdpp Require Import base option gmap strings list.

#[local] Set Warnings "-register-all".
#[local] Open Scope Z_scope.
#[local] Open Scope string_scope.

(** ** Python values that flow through the client's configuration *)

Inductive PyVal : Type :=
| VNone
| VBool (b : bool)
| VInt (z : Z)
| VStr (s : string)
| VSSLContext (check_hostname : bool)   (* an instance of ssl.SSLContext *)
| VGlobal (name : string)               (* a class or function of a library *)
| VObj (id : nat)                       (* an object of the driver, by identity *)
| VList (l : list PyVal)
| VDict (d : gmap string PyVal)
| VConninfo (params : gmap string PyVal). (* what psycopg's make_conninfo built *)

(** Python's truth value testing ([if x:], [x or y]). *)
Definition truthy (v : PyVal) : bool :=
  match v with
  | VNone => false
  | VBool b => b
  | VInt z => negb (Z.eqb z 0)
  | VStr s => negb (String.eqb s "")
  | VSSLContext _ => true
  | VGlobal _ => true
  | VObj _ => true
  | VList l => match l with [] => false | _ :: _ => true end
  | VDict d => match map_to_list d with [] => false | _ :: _ => true end
  | VConninfo _ => true
  end.

Definition py_or (a b : PyVal) : PyVal := if truthy a then a else b.

(** ** Exceptions *)

(** The classes of psycopg and psycopg_pool that the client names in its
    [except] clauses.  Which of them a driver exception belongs to is
    data of the exception (its method resolution order): the hierarchy
    is psycopg's, not the client's. *)
Module errors.
Inductive Class : Type :=
| SyntaxErrorOrAccessRuleViolation
| DataException
| UndefinedTable
| IntegrityError
| InvalidTransactionState
| InFailedSqlTransaction
| InvalidCatalogName
| PoolTimeout                 (* psycopg_pool.PoolTimeout *)
| Other (name : string).      (* any other class of the driver *)

#[global] Instance Class_eq_dec : EqDecision Class.
Proof. solve_decision. Defined.
End errors.

(** An exception raised by the driver: the classes it is an instance of
    and its text. *)
Record BackendExc : Type := mkBackendExc {
  exc_mro : list errors.Class;
  exc_text : string
}.

Definition isinstance (e : BackendExc) (cls : errors.Class) : bool :=
  bool_decide (cls ∈ exc_mro e).

(** [isinstance(e, (c1, ..., cn))], the test of [except (c1, ..., cn)]. *)
Definition isinstance_any (e : BackendExc) (clss : list errors.Class) : bool :=
  existsb (isinstance e) clss.

(** The argument a tortoise exception was constructed with. *)
Inductive ExcArg : Type :=
| Msg (s : string)
| Cause (e : BackendExc).

(** [tortoise.exceptions]: the four errors of the client's taxonomy. *)
Module exceptions.
Inductive Kind : Type :=
| OperationalError
| IntegrityError
| TransactionManagementError
| DBConnectionError.
End exceptions.

Inductive Exc : Type :=
| Native (e : BackendExc)                          (* as the driver raised it *)
| Tortoise (k : exceptions.Kind) (a : ExcArg)
| RuntimeError (msg : string)
| TypeError (msg : string)
| AttributeError (msg : string)
| KeyError (key : string).

Definition is_taxonomy (e : Exc) : bool :=
  match e with Tortoise _ _ => true | _ => false end.

(** The outcome of a call: a value, or a raised exception. *)
Inductive Outcome (A : Type) : Type :=
| Ok (a : A)
| Err (e : Exc).
Arguments Ok {A} a.
Arguments Err {A} e.

(** ** Objects of the driver, by identity *)

Definition PoolRef := nat.
Definition ConnRef := nat.
Definition LockRef := nat.
Definition TxRef := nat.
Definition CursorRef := nat.

(** [psycopg.pq.ExecStatus] *)
Inductive ExecStatus : Type :=
| EMPTY_QUERY | COMMAND_OK | TUPLES_OK | COPY_OUT | COPY_IN
| BAD_RESPONSE | NONFATAL_ERROR | FATAL_ERROR.

Definition ExecStatus_eqb (a b : ExecStatus) : bool :=
  match a, b with
  | EMPTY_QUERY, EMPTY_QUERY | COMMAND_OK, COMMAND_OK | TUPLES_OK, TUPLES_OK
  | COPY_OUT, COPY_OUT | COPY_IN, COPY_IN | BAD_RESPONSE, BAD_RESPONSE
  | NONFATAL_ERROR, NONFATAL_ERROR | FATAL_ERROR, FATAL_ERROR => true
  | _, _ => false
  end.

(** What the client reads off a cursor once [execute] has returned. *)
Record CursorView : Type := mkCursorView {
  rowcount : option Z;            (* cursor.rowcount *)
  rownumber : option Z;           (* cursor.rownumber *)
  pgresult : option ExecStatus    (* cursor.pgresult, by its status *)
}.

Definition Row := gmap string PyVal.

(** ** The objects of the client *)

Module PsycopgClientObj.
(** The attributes of a pooled client that [client.py] reads or
    writes.  [_template] is [None] until [create_connection] has
    stored it. *)
Record t : Type := mk {
  _pool : option PoolRef;
  _connection : option ConnRef;
  host : PyVal;
  port : PyVal;
  user : PyVal;
  password : PyVal;
  database : option string;
  schema : option string;
  application_name : PyVal;
  server_settings : gmap string PyVal;
  extra : gmap string PyVal;
  pool_minsize : PyVal;
  pool_maxsize : PyVal;
  _template : option (gmap string PyVal);
  _pool_init_lock : LockRef;
  log : nat;
  connection_name : string
}.

Definition set__pool (p : option PoolRef) (c : t) : t :=
  mk p (_connection c) (host c) (port c) (user c) (password c) (database c)
     (schema c) (application_name c) (server_settings c) (extra c)
     (pool_minsize c) (pool_maxsize c) (_template c) (_pool_init_lock c)
     (log c) (connection_name c).

Definition set_server_settings (m : gmap string PyVal) (c : t) : t :=
  mk (_pool c) (_connection c) (host c) (port c) (user c) (password c)
     (database c) (schema c) (application_name c) m (extra c)
     (pool_minsize c) (pool_maxsize c) (_template c) (_pool_init_lock c)
     (log c) (connection_name c).

Definition set__template (m : gmap string PyVal) (c : t) : t :=
  mk (_pool c) (_connection c) (host c) (port c) (user c) (password c)
     (database c) (schema c) (application_name c) (server_settings c)
     (extra c) (pool_minsize c) (pool_maxsize c) (Some m)
     (_pool_init_lock c) (log c) (connection_name c).
End PsycopgClientObj.

(** The object a wrapper was built from: a pooled client, or the wrapper
    of the enclosing transaction. *)
Inductive Parent (W : Type) : Type :=
| OfClient (c : PsycopgClientObj.t)
| OfWrapper (w : W).
Arguments OfClient {W} c.
Arguments OfWrapper {W} w.

Module TransactionWrapperObj.
Inductive t : Type := mk {
  _connection : option ConnRef;
  _lock : LockRef;
  log : nat;
  connection_name : string;
  _transaction : option TxRef;
  _finalized : bool;
  _parent : Parent t
}.

Definition set__transaction (x : option TxRef) (w : t) : t :=
  mk (_connection w) (_lock w) (log w) (connection_name w) x
     (_finalized w) (_parent w).

Definition set__finalized (b : bool) (w : t) : t :=
  mk (_connection w) (_lock w) (log w) (connection_name w)
     (_transaction w) b (_parent w).
End TransactionWrapperObj.

(** What [acquire_connection()] returns: one of the two scoped
    acquisitions of [tortoise.backends.base.client], with the arguments
    the client passes. *)
Inductive AcquireCtx : Type :=
| ConnectionWrapper (lock : LockRef) (client : TransactionWrapperObj.t)
| PoolConnectionWrapper (client : PsycopgClientObj.t) (pool_init_lock : LockRef).

(** ** Calls into the driver *)

(** Constructors of driver objects.  They are synchronous and yield an
    object that did not exist before. *)
Inductive Ctor : Type :=
| new_AsyncConnectionPool (kwargs : gmap string PyVal)
| new_Lock
| new_transaction (conn : ConnRef)
| new_cursor (conn : ConnRef) (row_factory : option PyVal).

(** Awaited calls, indexed by the type of what they return.  An omitted
    optional argument is [None].  [acquire_aenter] and [acquire_aexit]
    are the [__aenter__] and [__aexit__] of the scoped acquisitions of
    [tortoise.backends.base.client], whose code is not among the
    sources: they are answered like the calls of the driver, and what
    they do to the client they were given (a pool created on first use)
    is not described. *)
Inductive Call : Type -> Type :=
| pool_open (p : PoolRef) (wait : option bool) (timeout : option PyVal) : Call unit
| pool_close (p : PoolRef) (timeout : option PyVal) : Call unit
| pool_getconn (p : PoolRef) : Call ConnRef
| pool_putconn (p : PoolRef) (conn : ConnRef) : Call unit
| acquire_aenter (cm : AcquireCtx) : Call (option ConnRef)
| acquire_aexit (cm : AcquireCtx) (exc : option Exc) : Call unit
| cursor_aenter (c : CursorRef) : Call unit
| cursor_aexit (c : CursorRef) (exc : option Exc) : Call unit
| cursor_execute (c : CursorRef) (query : string) (values : option (list PyVal))
    : Call CursorView
| cursor_executemany (c : CursorRef) (query : string) (values : list PyVal)
    : Call unit
| cursor_fetchall (c : CursorRef) : Call (list Row)
| transaction_aenter (t : TxRef) : Call unit
| transaction_aexit (t : TxRef) (rollback : bool) : Call unit
| lock_acquire (l : LockRef) : Call unit.

Inductive Event : Type :=
| EvNew (c : Ctor) (r : Outcome nat)
| EvLog (fmt : string) (args : list PyVal)
| EvAwait {R : Type} (c : Call R) (r : Outcome R).

(** ** Coroutines *)

(** A coroutine over an object of type [St] (its [self]).  [Get] and
    [Put] read and write [self]; [New] and [Log] are synchronous calls;
    [Await] is the only node at which the event loop may run another
    task before the coroutine goes on. *)
Inductive Coro (St A : Type) : Type :=
| Ret (a : A)
| Raise (e : Exc)
| Get (k : St -> Coro St A)
| Put (s : St) (k : Coro St A)
| New (c : Ctor) (k : Outcome nat -> Coro St A)
| Log (fmt : string) (args : list PyVal) (k : Coro St A)
| Await {R : Type} (c : Call R) (k : Outcome R -> Coro St A).
Arguments Ret {St A} a.
Arguments Raise {St A} e.
Arguments Get {St A} k.
Arguments Put {St A} s k.
Arguments New {St A} c k.
Arguments Log {St A} fmt args k.
Arguments Await {St A R} c k.

Fixpoint bind {St A B} (m : Coro St A) (f : A -> Coro St B) : Coro St B :=
  match m with
  | Ret a => f a
  | Raise e => Raise e
  | Get k => Get (fun s => bind (k s) f)
  | Put s k => Put s (bind k f)
  | New c k => New c (fun r => bind (k r) f)
  | Log fmt args k => Log fmt args (bind k f)
  | Await c k => Await c (fun r => bind (k r) f)
  end.

Notation "x <- m ;; k" := (bind m (fun x => k))
  (at level 100, m at next level, right associativity).
Notation "m ;;; k" := (bind m (fun _ => k))
  (at level 100, right associativity).

(** [try: m  except ...: h]: the handler [h] answers [None] for an
    exception that no clause matches. *)
Fixpoint try_except {St A} (m : Coro St A) (h : Exc -> option (Coro St A))
  : Coro St A :=
  match m with
  | Ret a => Ret a
  | Raise e => match h e with Some m' => m' | None => Raise e end
  | Get k => Get (fun s => try_except (k s) h)
  | Put s k => Put s (try_except k h)
  | New c k => New c (fun r => try_except (k r) h)
  | Log fmt args k => Log fmt args (try_except k h)
  | Await c k => Await c (fun r => try_except (k r) h)
  end.

(** Runs [m] and hands back how it ended. *)
Fixpoint attempt {St A} (m : Coro St A) : Coro St (Outcome A) :=
  match m with
  | Ret a => Ret (Ok a)
  | Raise e => Ret (Err e)
  | Get k => Get (fun s => attempt (k s))
  | Put s k => Put s (attempt k)
  | New c k => New c (fun r => attempt (k r))
  | Log fmt args k => Log fmt args (attempt k)
  | Await c k => Await c (fun r => attempt (k r))
  end.

Definition lift {St A} (r : Outcome A) : Coro St A :=
  match r with Ok a => Ret a | Err e => Raise e end.

Definition get {St} : Coro St St := Get Ret.
Definition put {St} (s : St) : Coro St unit := Put s (Ret tt).
Definition modify {St} (f : St -> St) : Coro St unit := Get (fun s => Put (f s) (Ret tt)).
Definition new {St} (c : Ctor) : Coro St nat := New c lift.
Definition debug {St} (fmt : string) (args : list PyVal) : Coro St unit :=
  Log fmt args (Ret tt).
(** [await c]: an exception of the call is raised in the coroutine. *)
Definition await {St R} (c : Call R) : Coro St R := Await c lift.

(** [async with cm as x: body], for a context manager whose [__aexit__]
    does not swallow the exception (the acquisition wrappers, psycopg's
    cursor): [__aexit__] runs on every way out of [body], and is told
    the exception [body] raised. *)
Definition async_with {St X A} (aenter : Call X) (aexit : option Exc -> Call unit)
    (body : X -> Coro St A) : Coro St A :=
  x <- await aenter ;;
  r <- attempt (body x) ;;
  await (aexit (match r with Ok _ => None | Err e => Some e end)) ;;;
  lift r.

(** [AsyncConnectionPool]: the two methods the client adds to
    psycopg_pool's pool. *)
Module AsyncConnectionPool.
Definition acquire {St} (self : PoolRef) : Coro St ConnRef :=
  await (pool_getconn self).

Definition release {St} (self : PoolRef) (connection : ConnRef) : Coro St unit :=
  await (pool_putconn self connection).
End AsyncConnectionPool.

(** ** Running a coroutine *)

Record Driver : Type := mkDriver {
  on_new : list Event -> Ctor -> option Exc;
  on_await : forall R, list Event -> Call R -> Outcome R
}.

(** The object, the next free identity, and what was called so far. *)
Record World (St : Type) : Type := mkWorld {
  obj : St;
  next_id : nat;
  trace : list Event
}.
Arguments mkWorld {St} obj next_id trace.
Arguments obj {St} w.
Arguments next_id {St} w.
Arguments trace {St} w.

Definition do_new {St} (d : Driver) (c : Ctor) (w : World St)
  : Outcome nat * World St :=
  match on_new d (trace w) c with
  | None =>
      (Ok (next_id w),
       mkWorld (obj w) (S (next_id w)) (trace w ++ [EvNew c (Ok (next_id w))]))
  | Some e => (Err e, mkWorld (obj w) (next_id w) (trace w ++ [EvNew c (Err e)]))
  end.

Definition do_log {St} (fmt : string) (args : list PyVal) (w : World St) : World St :=
  mkWorld (obj w) (next_id w) (trace w ++ [EvLog fmt args]).

Definition reply {St R} (c : Call R) (r : Outcome R) (w : World St) : World St :=
  mkWorld (obj w) (next_id w) (trace w ++ [EvAwait c r]).

(** One task alone: every awaited call is answered at once. *)
Fixpoint run {St A} (d : Driver) (m : Coro St A) (w : World St)
  : Outcome A * World St :=
  match m with
  | Ret a => (Ok a, w)
  | Raise e => (Err e, w)
  | Get k => run d (k (obj w)) w
  | Put s k => run d k (mkWorld s (next_id w) (trace w))
  | New c k => let '(r, w') := do_new d c w in run d (k r) w'
  | Log fmt args k => run d k (do_log fmt args w)
  | Await c k =>
      let r := on_await d _ (trace w) c in run d (k r) (reply c r w)
  end.

(** How far a coroutine gets before the event loop can run anything
    else: to its end, or to its next [await]. *)
Inductive Susp (St A : Type) : Type :=
| Finished (r : Outcome A) (w : World St)
| Suspended {R : Type} (c : Call R) (k : Outcome R -> Coro St A) (w : World St).
Arguments Finished {St A} r w.
Arguments Suspended {St A R} c k w.

Fixpoint segment {St A} (d : Driver) (m : Coro St A) (w : World St) : Susp St A :=
  match m with
  | Ret a => Finished (Ok a) w
  | Raise e => Finished (Err e) w
  | Get k => segment d (k (obj w)) w
  | Put s k => segment d k (mkWorld s (next_id w) (trace w))
  | New c k => let '(r, w') := do_new d c w in segment d (k r) w'
  | Log fmt args k => segment d k (do_log fmt args w)
  | Await c k => Suspended c k w
  end.

(** ** The exception translator *)

Definition TransactionManagementError (a : ExcArg) : Exc :=
  Tortoise exceptions.TransactionManagementError a.
Definition OperationalError (a : ExcArg) : Exc :=
  Tortoise exceptions.OperationalError a.
Definition IntegrityError (a : ExcArg) : Exc :=
  Tortoise exceptions.IntegrityError a.
Definition DBConnectionError (a : ExcArg) : Exc :=
  Tortoise exceptions.DBConnectionError a.

(** The [except] clauses of [PsycopgClient._translate_exceptions], in
    the order Python tries them: the exception raised in place of [exc],
    or [None] when no clause catches [exc]. *)
Definition translate (exc : Exc) : option Exc :=
  match exc with
  | Native e =>
      if isinstance_any e [errors.SyntaxErrorOrAccessRuleViolation;
                           errors.DataException;
                           errors.UndefinedTable]
      then Some (OperationalError (Cause e))
      else if isinstance e errors.IntegrityError
      then Some (IntegrityError (Cause e))
      else if isinstance_any e [errors.InvalidTransactionState;
                                errors.InFailedSqlTransaction]
      then Some (TransactionManagementError (Cause e))
      else None
  | _ => None
  end.

Definition translate_handler {St A} (exc : Exc) : option (Coro St A) :=
  option_map Raise (translate exc).

(** [PsycopgClient._translate_exceptions(self, func, *args, **kwargs)];
    [func] stands for the call [func(self, *args, **kwargs)]. *)
Definition _translate_exceptions {St A} (func : Coro St A) : Coro St A :=
  try_except func translate_handler.

(** Modelled from the spec: the decorator
    [tortoise.backends.base_postgres.client.translate_exceptions] is not
    among the sources.  The spec (4.5, 9) describes it as a wrapper
    applied at each driver-facing call that hands the call to the
    translator; the client defines that translator as the method
    [_translate_exceptions] above. *)
Definition translate_exceptions {St A} (func : Coro St A) : Coro St A :=
  _translate_exceptions func.

(** ** The interface the two clients share *)

(** [acquire_connection] is what [TransactionWrapper] overrides; the
    query methods are written once against it. *)
Class Client (St : Type) : Type := {
  acquire_connection : St -> AcquireCtx
}.

Definition opt_list (values : option (list PyVal)) : PyVal :=
  match values with Some l => VList l | None => VNone end.

Definition opt_int (n : option Z) : PyVal :=
  match n with Some z => VInt z | None => VNone end.

(** [int(x)] for the values a cursor reports. *)
Definition py_int {St} (v : PyVal) : Coro St Z :=
  match v with
  | VInt z => Ret z
  | VBool b => Ret (if b then 1 else 0)
  | _ => Raise (TypeError "int() argument must be a string, a bytes-like object or a real number")
  end.

Definition dict_row : PyVal := VGlobal "psycopg.rows.dict_row".

(** [connection.cursor(...)] on what the acquisition yielded. *)
Definition cursor {St} (connection : option ConnRef) (row_factory : option PyVal)
  : Coro St CursorRef :=
  match connection with
  | None => Raise (AttributeError "'NoneType' object has no attribute 'cursor'")
  | Some conn => new (new_cursor conn row_factory)
  end.

Section Queries.
Context {St : Type} `{Client St}.

Definition execute_query_body (query : string) (values : option (list PyVal))
    (row_factory : PyVal) : Coro St (Z * list Row) :=
  self <- get ;;
  let cm := acquire_connection self in
  async_with (acquire_aenter cm) (acquire_aexit cm) (fun connection =>
    cur <- cursor connection (Some row_factory) ;;
    async_with (cursor_aenter cur) (cursor_aexit cur) (fun _ =>
      debug "%s: %s" [VStr query; opt_list values] ;;;
      view <- await (cursor_execute cur query values) ;;
      rowcount <- py_int (py_or (opt_int (rowcount view))
                           (py_or (opt_int (rownumber view)) (VInt 0))) ;;
      rows <- match pgresult view with
              | Some status =>
                  if ExecStatus_eqb status TUPLES_OK
                  then await (cursor_fetchall cur)
                  else Ret []
              | None => Ret []
              end ;;
      Ret (rowcount, rows))).

Definition execute_query (query : string) (values : option (list PyVal))
    (row_factory : PyVal) : Coro St (Z * list Row) :=
  translate_exceptions (execute_query_body query values row_factory).

Definition execute_insert (query : string) (values : list PyVal)
  : Coro St (option Row) :=
  res <- execute_query query (Some values) dict_row ;;
  let '(inserted, rows) := res in
  match rows with
  | r :: _ => Ret (Some r)
  | [] => Ret None
  end.

Definition execute_many_body (query : string) (values : list PyVal)
  : Coro St unit :=
  self <- get ;;
  let cm := acquire_connection self in
  async_with (acquire_aenter cm) (acquire_aexit cm) (fun connection =>
    cur <- cursor connection None ;;
    async_with (cursor_aenter cur) (cursor_aexit cur) (fun _ =>
      debug "%s: %s" [VStr query; VList values] ;;;
      await (cursor_executemany cur query values))).

Definition execute_many (query : string) (values : list PyVal) : Coro St unit :=
  translate_exceptions (execute_many_body query values).

Definition execute_query_dict (query : string) (values : option (list PyVal))
  : Coro St (list Row) :=
  res <- execute_query query values dict_row ;;
  let '(rowcount, rows) := res in
  Ret rows.
End Queries.

(** What [_in_transaction()] returns: a context of
    [tortoise.backends.base.client] around the new wrapper. *)
Inductive TransactionContext : Type :=
| TransactionContextPooled (connection : TransactionWrapperObj.t)
                           (pool_init_lock : LockRef)
| NestedTransactionContext (connection : TransactionWrapperObj.t).

Definition context_connection (ctx : TransactionContext) : TransactionWrapperObj.t :=
  match ctx with
  | TransactionContextPooled w _ => w
  | NestedTransactionContext w => w
  end.

(** ** TransactionWrapper *)

Module TransactionWrapper.
Import TransactionWrapperObj.

Definition parent_connection (p : Parent t) : option ConnRef :=
  match p with
  | OfClient c => PsycopgClientObj._connection c
  | OfWrapper w => _connection w
  end.

Definition parent_log (p : Parent t) : nat :=
  match p with
  | OfClient c => PsycopgClientObj.log c
  | OfWrapper w => log w
  end.

Definition parent_connection_name (p : Parent t) : string :=
  match p with
  | OfClient c => PsycopgClientObj.connection_name c
  | OfWrapper w => connection_name w
  end.

(** [TransactionWrapper(connection)] *)
Definition __init__ {St} (connection : Parent t) : Coro St t :=
  lock <- new new_Lock ;;
  Ret (mk (parent_connection connection) lock (parent_log connection)
          (parent_connection_name connection) None false connection).

Definition begin_body : Coro t unit :=
  self <- get ;;
  match _connection self with
  | None => Raise (AttributeError "'NoneType' object has no attribute 'transaction'")
  | Some conn =>
      tx <- new (new_transaction conn) ;;
      modify (set__transaction (Some tx)) ;;;
      await (transaction_aenter tx)
  end.

Definition begin : Coro t unit := translate_exceptions begin_body.

Definition savepoint : Coro t unit := begin.

Definition commit : Coro t unit :=
  self <- get ;;
  match _transaction self with
  | None =>
      Raise (TransactionManagementError (Msg "Transaction is in invalid state"))
  | Some tx =>
      if _finalized self
      then Raise (TransactionManagementError (Msg "Transaction already finalised"))
      else
        await (transaction_aexit tx false) ;;;
        modify (set__finalized true)
  end.

Definition release_savepoint : Coro t unit := commit.

Definition rollback : Coro t unit :=
  self <- get ;;
  match _transaction self with
  | None =>
      Raise (TransactionManagementError (Msg "Transaction is in invalid state"))
  | Some tx =>
      if _finalized self
      then Raise (TransactionManagementError (Msg "Transaction already finalised"))
      else
        await (transaction_aexit tx true) ;;;
        modify (set__finalized true)
  end.

Definition savepoint_rollback : Coro t unit := rollback.

#[global] Instance client : Client t := {
  acquire_connection self := ConnectionWrapper (_lock self) self
}.

Definition _in_transaction : Coro t TransactionContext :=
  self <- get ;;
  w <- __init__ (OfWrapper self) ;;
  Ret (NestedTransactionContext w).
End TransactionWrapper.

(** Modelled from the spec: [tortoise.backends.base.client.ConnectionWrapper],
    the scoped acquisition a [TransactionWrapper] returns, is not among
    the sources.  Spec 4.2: on enter, the dedicated lock it was given
    (transaction mode) is acquired to serialize access to that one
    connection, the connection bound to its client, which it yields. *)
Definition ConnectionWrapper_aenter {St} (lock : LockRef)
    (client : TransactionWrapperObj.t) : Coro St (option ConnRef) :=
  await (lock_acquire lock) ;;;
  Ret (TransactionWrapperObj._connection client).

(** Is the event a checkout of a connection from a pool? *)
Definition is_checkout (ev : Event) : bool :=
  match ev with
  | EvAwait (pool_getconn _) _ => true
  | _ => false
  end.

(** The transaction methods of a wrapper, to speak of sequences of calls. *)
Inductive TxMethod : Type :=
| m_begin | m_savepoint
| m_commit | m_release_savepoint
| m_rollback | m_savepoint_rollback.

Definition tx_call (m : TxMethod) : Coro TransactionWrapperObj.t unit :=
  match m with
  | m_begin => TransactionWrapper.begin
  | m_savepoint => TransactionWrapper.savepoint
  | m_commit => TransactionWrapper.commit
  | m_release_savepoint => TransactionWrapper.release_savepoint
  | m_rollback => TransactionWrapper.rollback
  | m_savepoint_rollback => TransactionWrapper.savepoint_rollback
  end.

(** Does the method end the transaction (commit or roll back)? *)
Definition ends (m : TxMethod) : bool :=
  match m with
  | m_begin | m_savepoint => false
  | _ => true
  end.

Definition succeeded {A} (r : Outcome A) : bool :=
  match r with Ok _ => true | Err _ => false end.

(** Calls made one after the other on the same wrapper, each run to its
    end; the answer is how each call ended and the world they leave. *)
Fixpoint tx_calls (d : Driver) (ms : list TxMethod) (w : World TransactionWrapperObj.t)
  : list (TxMethod * Outcome unit) * World TransactionWrapperObj.t :=
  match ms with
  | [] => ([], w)
  | m :: ms' =>
      let '(r, w') := run d (tx_call m) w in
      let '(rs, w'') := tx_calls d ms' w' in
      ((m, r) :: rs, w'')
  end.

(** How many commits and rollbacks of a sequence returned normally. *)
Fixpoint ended_ok (rs : list (TxMethod * Outcome unit)) : nat :=
  match rs with
  | [] => 0
  | (m, r) :: rs' => (if ends m && succeeded r then 1 else 0) + ended_ok rs'
  end.

(** Wrappers reached from [root] by entering nested transactions: a
    wrapper stays the same object through the calls of its transaction
    methods, and [_in_transaction()] on it yields the next wrapper. *)
Inductive nested_from (root : TransactionWrapperObj.t)
  : TransactionWrapperObj.t -> Prop :=
| nested_root : nested_from root root
| nested_used (d : Driver) (ms : list TxMethod)
    (w : World TransactionWrapperObj.t) :
    nested_from root (obj w) ->
    nested_from root (obj (tx_calls d ms w).2)
| nested_step (d : Driver) (w : World TransactionWrapperObj.t)
    (ctx : TransactionContext) (w' : World TransactionWrapperObj.t) :
    nested_from root (obj w) ->
    run d TransactionWrapper._in_transaction w = (Ok ctx, w') ->
    nested_from root (context_connection ctx).

(** ** PsycopgClient *)

Module PsycopgClient.
Import PsycopgClientObj.

Definition default_timeout : PyVal := VInt 30.

(** [f"{x}"] for an optional string. *)
Definition fmt (x : option string) : string :=
  match x with Some s => s | None => "None" end.

(** [d.setdefault(k, v)] *)
Definition setdefault (k : string) (v : PyVal) (d : gmap string PyVal)
  : gmap string PyVal :=
  match d !! k with Some _ => d | None => <[k := v]> d end.

(** [d.pop(k, None)]: the value and what is left of [d]. *)
Definition pop (k : string) (d : gmap string PyVal) : PyVal * gmap string PyVal :=
  (default VNone (d !! k), delete k d).

(** [isinstance(ssl, SSLContext) and ssl.check_hostname] *)
Definition verifies_hostname (ssl : PyVal) : bool :=
  match ssl with VSSLContext check_hostname => check_hostname | _ => false end.

(** The keywords [create_connection] passes to [make_conninfo] by name. *)
Definition conninfo_keywords : list string :=
  ["host"; "port"; "user"; "password"; "dbname"].

(** [psycopg.conninfo.make_conninfo] called with keywords only: the
    parameters that are not [None]. *)
Definition make_conninfo (kwargs : gmap string PyVal) : PyVal :=
  VConninfo (omap (fun v => match v with VNone => None | _ => Some v end) kwargs).

(** [create_pool(self, **kwargs)] *)
Definition create_pool {St} (kwargs : gmap string PyVal) : Coro St PoolRef :=
  match kwargs !! "open" with
  | Some _ =>
      Raise (TypeError "got multiple values for keyword argument 'open'")
  | None =>
      pool <- new (new_AsyncConnectionPool kwargs) ;;
      await (pool_open pool None None) ;;;
      Ret pool
  end.

(** The server settings after lines 65-75 of [create_connection]. *)
Definition tls_settings (self : t) (ssl : PyVal) : gmap string PyVal :=
  let s1 := <["options" :=
               match schema self with
               | Some s => if String.eqb s "" then VNone
                           else VStr ("-c search_path=" +:+ s)
               | None => VNone
               end]> (server_settings self) in
  let s2 := <["application_name" := application_name self]> s1 in
  if truthy ssl
  then if verifies_hostname ssl
       then <["sslmode" := VStr "verify-full"]> s2
       else <["sslmode" := VStr "require"]> s2
  else s2.

(** The [except] clause around the opening of the pool. *)
Definition connect_error (database : option string) (exc : Exc) : option Exc :=
  match exc with
  | Native e =>
      if isinstance_any e [errors.InvalidCatalogName; errors.PoolTimeout]
      then Some (DBConnectionError
             (Msg ("Can't establish connection to database " +:+ fmt database)))
      else None
  | _ => None
  end.

Definition connect_handler {A} (database : option string) (exc : Exc)
  : option (Coro t A) :=
  option_map Raise (connect_error database exc).

Definition pool_arg (p : option PoolRef) : PyVal :=
  match p with Some id => VObj id | None => VNone end.

(** [extra] after [setdefault("timeout", ...)] and [pop("ssl", None)]:
    the popped value and what is left. *)
Definition popped_extra (self : t) : PyVal * gmap string PyVal :=
  pop "ssl" (setdefault "timeout" default_timeout (extra self)).

(** The keywords of [make_conninfo] that [**self.server_settings] would
    give a second time. *)
Definition keyword_clash (settings : gmap string PyVal) : list string :=
  List.filter (fun k => bool_decide (is_Some (settings !! k))) conninfo_keywords.

Definition conninfo_of (self : t) (with_db : bool) (settings : gmap string PyVal)
  : PyVal :=
  make_conninfo (
    <["host" := host self]> (
    <["port" := port self]> (
    <["user" := user self]> (
    <["password" := password self]> (
    <["dbname" := if with_db
                  then match database self with
                       | Some s => VStr s
                       | None => VNone
                       end
                  else VNone]> settings))))).

(** The dictionary stored as [self._template]; the entries of [extra]
    come last and win. *)
Definition template_of (self : t) (conninfo : PyVal) (extra : gmap string PyVal)
  : gmap string PyVal :=
  extra ∪
  <["conninfo" := conninfo]> (
  <["min_size" := pool_minsize self]> (
  <["max_size" := pool_maxsize self]> (
  <["kwargs" := VDict (<["autocommit" := VBool true]>
                      (<["row_factory" := dict_row]> ∅))]> (
  <["connection_class" := VGlobal "psycopg.AsyncConnection"]> ∅)))).

(** The [try] block of [create_connection]. *)
Definition open_pool (template extra : gmap string PyVal) : Coro t unit :=
  pool <- create_pool template ;;
  modify (set__pool (Some pool)) ;;;
  self <- get ;;
  match _pool self with
  | None => Raise (AttributeError "'NoneType' object has no attribute 'open'")
  | Some p =>
      await (pool_open p (Some true) (Some (default VNone (extra !! "timeout")))) ;;;
      self' <- get ;;
      debug "Created connection pool %s with params: %s"
        [pool_arg (_pool self'); VDict template]
  end.

(** [self.database], read in the handler, is written by no method of
    the client: it is the value read on entry. *)
Definition create_connection_body (with_db : bool) : Coro t unit :=
  self <- get ;;
  match _pool self with
  | Some _ => Raise (RuntimeError "Connection pool already created")
  | None =>
      let ssl := (popped_extra self).1 in
      let extra := (popped_extra self).2 in
      let settings := tls_settings self ssl in
      put (set_server_settings settings self) ;;;
      match keyword_clash settings with
      | k :: _ =>
          Raise (TypeError ("got multiple values for keyword argument '" +:+ k +:+ "'"))
      | [] =>
          let template := template_of self (conninfo_of self with_db settings) extra in
          modify (set__template template) ;;;
          try_except (open_pool template extra) (connect_handler (database self))
      end
  end.

Definition create_connection (with_db : bool) : Coro t unit :=
  translate_exceptions (create_connection_body with_db).

Definition template_arg (self : t) : Coro t (gmap string PyVal) :=
  match _template self with
  | Some m => Ret m
  | None => Raise (AttributeError "'PsycopgClient' object has no attribute '_template'")
  end.

Definition _expire_connections : Coro t unit :=
  self <- get ;;
  match _pool self with
  | Some p =>
      await (pool_close p None) ;;;
      self' <- get ;;
      template <- template_arg self' ;;
      pool <- create_pool template ;;
      modify (set__pool (Some pool))
  | None => Ret tt
  end.

Definition _close : Coro t unit :=
  self <- get ;;
  match _pool self with
  | Some pool =>
      modify (set__pool None) ;;;
      await (pool_close pool (Some (VInt 10))) ;;;
      self' <- get ;;
      template <- template_arg self' ;;
      debug "Closed connection pool %s with params: %s"
        [pool_arg (_pool self'); VDict template]
  | None => Ret tt
  end.

#[global] Instance client : Client t := {
  acquire_connection self := PoolConnectionWrapper self (_pool_init_lock self)
}.

(** The [except] clause of [db_delete]: what the call returns in place
    of raising [exc], or [None] when the clause does not catch [exc]. *)
Definition db_delete_handler {St} (exc : Exc) : option (Coro St unit) :=
  match exc with
  | Native e =>
      if isinstance e errors.InvalidCatalogName then Some (Ret tt) else None
  | _ => None
  end.

(** [db_delete(self)]; [super().db_delete()] is the base client's, which
    is not among the sources: it is the parameter [super_db_delete]. *)
Definition db_delete {St} (super_db_delete : Coro St unit) : Coro St unit :=
  try_except super_db_delete db_delete_handler.

Definition _in_transaction : Coro t TransactionContext :=
  self <- get ;;
  w <- TransactionWrapper.__init__ (OfClient self) ;;
  Ret (TransactionContextPooled w (_pool_init_lock self)).
End PsycopgClient.

(** A wrapper as [__init__] leaves it. *)
Definition not_started (w : TransactionWrapperObj.t) : Prop :=
  TransactionWrapperObj._transaction w = None /\
  TransactionWrapperObj._finalized w = false.

(** The two errors of a misplaced commit or rollback. *)
Definition invalid_state : Exc :=
  TransactionManagementError (Msg "Transaction is in invalid state").
Definition already_finalised : Exc :=
  TransactionManagementError (Msg "Transaction already finalised").

(** What ties the number [n] of commits and rollbacks that returned
    normally to the state of the wrapper. *)
Definition tx_inv (n : nat) (o : TransactionWrapperObj.t) : Prop :=
  (n <= 1)%nat /\
  (TransactionWrapperObj._finalized o = true <-> n = 1%nat) /\
  (TransactionWrapperObj._finalized o = true ->
   is_Some (TransactionWrapperObj._transaction o)).

(** The TLS mode among the parameters [make_conninfo] built. *)
Definition sslmode_of (conninfo : PyVal) : option PyVal :=
  match conninfo with
  | VConninfo params => params !! "sslmode"
  | _ => None
  end.

(** A setting that [make_conninfo] keeps: present and not [None]. *)
Definition kept (v : option PyVal) : option PyVal :=
  match v with
  | Some VNone => None
  | o => o
  end.

Definition pool_already_created : Exc :=
  RuntimeError "Connection pool already created".

(** Has a close of pool [p] returned, in what was called so far? *)
Definition closed (p : PoolRef) (tr : list Event) : bool :=
  existsb (fun ev =>
             match ev with
             | EvAwait (pool_close p' _) (Ok _) => Nat.eqb p p'
             | _ => false
             end) tr.

(** ** MySQL indexes ([tortoise/contrib/mysql/indexes.py]) *)

Module indexes.

(** The attributes of an index object, by name. *)
Definition Index := gmap string PyVal.

(** [Index.__init__] is the base class's, of [tortoise.indexes], which
    is not among the sources: a parameter of this type. *)
Definition BaseInit : Type :=
  list PyVal -> PyVal -> PyVal -> Outcome Index.

Module FullTextIndex.
Definition INDEX_TYPE : string := "FULLTEXT".

(** [f" WITH PARSER {parser_name}"] *)
Definition with_parser (parser_name : string) : string :=
  " WITH PARSER " +:+ parser_name.

Definition __init__ (Index___init__ : BaseInit) (expressions : list PyVal)
    (fields name : PyVal) (parser_name : option string) : Outcome Index :=
  match Index___init__ expressions fields name with
  | Err e => Err e
  | Ok self =>
      match parser_name with
      | Some p =>
          if truthy (VStr p)
          then Ok (<["extra" := VStr (with_parser p)]> self)
          else Ok self
      | None => Ok self
      end
  end.
End FullTextIndex.

Module SpatialIndex.
Definition INDEX_TYPE : string := "SPATIAL".
End SpatialIndex.

End indexes.

(** ** Sample objects and drivers *)

Definition sample_client : PsycopgClientObj.t :=
  PsycopgClientObj.mk None None (VStr "localhost") (VInt 5432) (VStr "tortoise")
    (VStr "secret") (Some "models") None VNone ∅ ∅ (VInt 1) (VInt 5) None
    0%nat 0%nat "default".

(** A wrapper bound to connection 1, as [__init__] leaves it. *)
Definition sample_wrapper : TransactionWrapperObj.t :=
  TransactionWrapperObj.mk (Some 1%nat) 2%nat 0%nat "default" None false
    (OfClient sample_client).

(** A driver exception of none of the classes the client names. *)
Definition connection_lost : BackendExc :=
  mkBackendExc [errors.Other "OperationalError"; errors.Other "DatabaseError";
                errors.Other "Error"]
    "server closed the connection unexpectedly".

(** Every call goes well. *)
Definition answer_ok {R} (c : Call R) : Outcome R :=
  match c with
  | pool_open _ _ _ => Ok tt
  | pool_close _ _ => Ok tt
  | pool_getconn _ => Ok 1%nat
  | pool_putconn _ _ => Ok tt
  | acquire_aenter _ => Ok (Some 1%nat)
  | acquire_aexit _ _ => Ok tt
  | cursor_aenter _ => Ok tt
  | cursor_aexit _ _ => Ok tt
  | cursor_execute _ _ _ => Ok (mkCursorView (Some 1) (Some 0) (Some TUPLES_OK))
  | cursor_executemany _ _ _ => Ok tt
  | cursor_fetchall _ => Ok [{[ "?column?" := VInt 1 ]}]
  | transaction_aenter _ => Ok tt
  | transaction_aexit _ _ => Ok tt
  | lock_acquire _ => Ok tt
  end.

Definition driver_ok : Driver :=
  mkDriver (fun _ _ => None) (fun R _ c => answer_ok c).

(** The driver fails to end a transaction; every other call goes well. *)
Definition driver_exit_fails : Driver :=
  mkDriver (fun _ _ => None)
    (fun R _ c =>
       match c in Call R return Outcome R with
       | transaction_aexit _ _ => Err (Native connection_lost)
       | c' => answer_ok c'
       end).

Definition world_of {St} (o : St) : World St := mkWorld o 10%nat [].

(** A driver that cannot reach the database: every awaited call raises
    psycopg's [OperationalError]. *)
Definition connection_refused : BackendExc :=
  mkBackendExc [errors.Other "OperationalError"; errors.Other "DatabaseError";
                errors.Other "Error"]
    "connection failed: Connection refused".

Definition driver_unreachable : Driver :=
  mkDriver (fun _ _ => None) (fun R _ _ => Err (Native connection_refused)).

(** The sample client once a pool (object 3) has been created. *)
Definition pooled_client : PsycopgClientObj.t :=
  PsycopgClientObj.set__template
    (PsycopgClient.template_of sample_client
       (PsycopgClient.conninfo_of sample_client true
          (PsycopgClient.tls_settings sample_client VNone))
       (PsycopgClient.popped_extra sample_client).2)
    (PsycopgClientObj.set__pool (Some 3%nat) sample_client).

(** The sample client configured with [server_settings={"sslmode":
    "disable"}] and no [ssl]. *)
Definition plain_client : PsycopgClientObj.t :=
  PsycopgClientObj.set_server_settings {[ "sslmode" := VStr "disable" ]}
    sample_client.

(** ** Stages of [create_connection] *)

Section Stages.
Import PsycopgClientObj.

(** The settings, the rest of [extra] and the template that
    [create_connection] builds on a client. *)
Definition settings_of (self : t) : gmap string PyVal :=
  PsycopgClient.tls_settings self (PsycopgClient.popped_extra self).1.

Definition extra_of (self : t) : gmap string PyVal :=
  (PsycopgClient.popped_extra self).2.

Definition built_template (self : t) (with_db : bool) : gmap string PyVal :=
  PsycopgClient.template_of self
    (PsycopgClient.conninfo_of self with_db (settings_of self)) (extra_of self).

(** The world once the settings and the template are stored. *)
Definition prepared (with_db : bool) (w : World t) : World t :=
  mkWorld (set__template (built_template (obj w) with_db)
             (set_server_settings (settings_of (obj w)) (obj w)))
    (next_id w) (trace w).

(** The world once the pool, object [next_id w], is constructed. *)
Definition constructed (template : gmap string PyVal) (w : World t) : World t :=
  mkWorld (obj w) (S (next_id w))
    (trace w ++ [EvNew (new_AsyncConnectionPool template) (Ok (next_id w))]).

(** The world once [create_pool] has returned it and it is stored. *)
Definition stored (template : gmap string PyVal) (w : World t) : World t :=
  mkWorld (set__pool (Some (next_id w)) (obj w)) (S (next_id w))
    (trace (constructed template w)
     ++ [EvAwait (pool_open (next_id w) None None) (Ok tt)]).

(** The liveness probe: [self._pool.open(wait=True, timeout=extra["timeout"])]. *)
Definition probe (extra : gmap string PyVal) (w : World t) : Call unit :=
  pool_open (next_id w) (Some true) (Some (default VNone (extra !! "timeout"))).

(** What comes out of [create_connection] for an exception of the
    [try] block: the clause of the block first, the translator next. *)
Definition connect_failure (database : option string) (e : Exc) : Exc :=
  let e1 := default e (PsycopgClient.connect_error database e) in
  default e1 (translate e1).

Definition cannot_connect (self : t) : Exc :=
  DBConnectionError
    (Msg ("Can't establish connection to database "
          +:+ PsycopgClient.fmt (database self))).

(** The classes the [try] block of [create_connection] catches. *)
Definition unreachable (e : BackendExc) : bool :=
  isinstance_any e [errors.InvalidCatalogName; errors.PoolTimeout].

End Stages.

(** The pool could not be filled in time. *)
Definition pool_timed_out : BackendExc :=
  mkBackendExc [errors.PoolTimeout; errors.Other "OperationalError";
                errors.Other "DatabaseError"; errors.Other "Error"]
    "pool initialization incomplete after 30.0 sec".

(** The driver whose liveness probe times out; every other call goes well. *)
Definition driver_probe_times_out : Driver :=
  mkDriver (fun _ _ => None)
    (fun R _ c =>
       match c in Call R return Outcome R with
       | pool_open _ (Some true) _ => Err (Native pool_timed_out)
       | c' => answer_ok c'
       end).

(** A duplicate key, as psycopg raises it. *)
Definition unique_violation : BackendExc :=
  mkBackendExc [errors.Other "UniqueViolation"; errors.IntegrityError;
                errors.Other "DatabaseError"; errors.Other "Error"]
    "duplicate key value violates unique constraint".

(** The sample client configured with an [ssl] context that checks
    host names, over server settings that name another mode. *)
Definition tls_client : PsycopgClientObj.t :=
  PsycopgClientObj.mk None None (VStr "localhost") (VInt 5432) (VStr "tortoise")
    (VStr "secret") (Some "models") None VNone
    {[ "sslmode" := VStr "disable" ]} {[ "ssl" := VSSLContext true ]}
    (VInt 1) (VInt 5) None 0%nat 0%nat "default".

(** ** Counting calls *)

(** A scoped acquisition was entered: its [__aenter__] returned. *)
Definition is_acquired (ev : Event) : bool :=
  match ev with
  | EvAwait (acquire_aenter _) (Ok _) => true
  | _ => false
  end.

(** The [__aexit__] of a scoped acquisition was called. *)
Definition is_released (ev : Event) : bool :=
  match ev with
  | EvAwait (acquire_aexit _ _) _ => true
  | _ => false
  end.

Definition is_cursor_entered (ev : Event) : bool :=
  match ev with
  | EvAwait (cursor_aenter _) (Ok _) => true
  | _ => false
  end.

Definition is_cursor_exited (ev : Event) : bool :=
  match ev with
  | EvAwait (cursor_aexit _ _) _ => true
  | _ => false
  end.

Definition is_fetchall (ev : Event) : bool :=
  match ev with
  | EvAwait (cursor_fetchall _) _ => true
  | _ => false
  end.

Definition count (f : Event -> bool) (tr : list Event) : nat :=
  length (List.filter f tr).

(** What [__aexit__] is told of the way the body ended. *)
Definition exc_of {A} (r : Outcome A) : option Exc :=
  match r with Ok _ => None | Err e => Some e end.

(** A coroutine none of whose calls is counted by [f]. *)
Inductive silent (f : Event -> bool) {St A : Type} : Coro St A -> Prop :=
| silent_Ret (a : A) : silent f (Ret a)
| silent_Raise (e : Exc) : silent f (Raise e)
| silent_Get (k : St -> Coro St A) : (forall s, silent f (k s)) -> silent f (Get k)
| silent_Put (s : St) (k : Coro St A) : silent f k -> silent f (Put s k)
| silent_New (c : Ctor) (k : Outcome nat -> Coro St A) :
    (forall r, f (EvNew c r) = false) ->
    (forall r, silent f (k r)) -> silent f (New c k)
| silent_Log (fmt : string) (args : list PyVal) (k : Coro St A) :
    f (EvLog fmt args) = false -> silent f k -> silent f (Log fmt args k)
| silent_Await {R : Type} (c : Call R) (k : Outcome R -> Coro St A) :
    (forall r, f (EvAwait c r) = false) ->
    (forall r, silent f (k r)) -> silent f (Await c k).

(** Whatever the driver answers, the coroutine adds as many calls
    counted by [f] as calls counted by [g], and at most one of each. *)
Definition balanced (f g : Event -> bool) {St A} (m : Coro St A) : Prop :=
  forall (d : Driver) (w : World St),
  exists n : nat,
    (n <= 1)%nat /\
    count f (trace (run d m w).2) = (count f (trace w) + n)%nat /\
    count g (trace (run d m w).2) = (count g (trace w) + n)%nat.

(** The driver answers a statement that returns no tuples (an
    [INSERT] without [RETURNING]): three rows affected, no result set. *)
Definition driver_command : Driver :=
  mkDriver (fun _ _ => None)
    (fun R _ c =>
       match c in Call R return Outcome R with
       | cursor_execute _ _ _ => Ok (mkCursorView (Some 3) None (Some COMMAND_OK))
       | c' => answer_ok c'
       end).

(** The database to drop does not exist. *)
Definition no_such_database : BackendExc :=
  mkBackendExc [errors.InvalidCatalogName; errors.Other "ProgrammingError";
                errors.Other "DatabaseError"; errors.Other "Error"]
    "database does not exist".

(** A parameter among those [make_conninfo] built. *)
Definition conninfo_param (k : string) (conninfo : PyVal) : option PyVal :=
  match conninfo with
  | VConninfo params => params !! k
  | _ => None
  end.

(** The sample client with a schema, and a preset [options] setting. *)
Definition schema_client : PsycopgClientObj.t :=
  PsycopgClientObj.mk None None (VStr "localhost") (VInt 5432) (VStr "tortoise")
    VNone (Some "models") (Some "app") (VStr "tortoise-orm")
    {[ "options" := VStr "-c statement_timeout=5" ]}
    {[ "ssl" := VBool true; "min_size" := VInt 2 ]}
    (VInt 1) (VInt 5) None 0%nat 0%nat "default".

(** A base constructor that stores its arguments, and refuses an index
    with neither expressions nor fields. *)
Definition sample_base_init : indexes.BaseInit :=
  fun expressions fields name =>
    if truthy (VList expressions) || truthy fields
    then Ok (<["fields" := fields]> (<["name" := name]>
              (<["expressions" := VList expressions]>
              (<["extra" := VStr ""]> ∅))))
    else Err (RuntimeError "Index requires at least one field or expression").

(** Does the event take a connection from a pool: entering a
    [PoolConnectionWrapper], or a checkout from the pool itself? *)
Definition uses_pool (ev : Event) : bool :=
  match ev with
  | EvAwait (acquire_aenter (PoolConnectionWrapper _ _)) _ => true
  | EvAwait (pool_getconn _) _ => true
  | _ => false
  end.

(** Does the event enter a [ConnectionWrapper] other than the one over
    [lock] and [client]? *)
Definition enters_other_wrapper (lock : LockRef) (ev : Event) : bool :=
  match ev with
  | EvAwait (acquire_aenter (ConnectionWrapper lock' _)) _ =>
      negb (Nat.eqb lock lock')
  | _ => false
  end.

(** Does the event enter a [ConnectionWrapper]? *)
Definition uses_dedicated (ev : Event) : bool :=
  match ev with
  | EvAwait (acquire_aenter (ConnectionWrapper _ _)) _ => true
  | _ => false
  end.

(** The driver cannot open a pool; every other call goes well. *)
Definition driver_open_fails : Driver :=
  mkDriver (fun _ _ => None)
    (fun R _ c =>
       match c in Call R return Outcome R with
       | pool_open _ _ _ => Err (Native connection_refused)
       | c' => answer_ok c'
       end).

(** The cursor reports a count of zero and a row position of five. *)
Definition driver_zero_count : Driver :=
  mkDriver (fun _ _ => None)
    (fun R _ c =>
       match c in Call R return Outcome R with
       | cursor_execute _ _ _ => Ok (mkCursorView (Some 0) (Some 5) (Some COMMAND_OK))
       | c' => answer_ok c'
       end).

(** The cursor reports -1 for a count it does not know, and no row
    position. *)
Definition driver_unknown_count : Driver :=
  mkDriver (fun _ _ => None)
    (fun R _ c =>
       match c in Call R return Outcome R with
       | cursor_execute _ _ _ => Ok (mkCursorView (Some (-1)) None (Some COMMAND_OK))
       | c' => answer_ok c'
       end).

(** * Properties *)

(** ** Running coroutines *)

Lemma run_bind {St A B} (d : Driver) (m : Coro St A) (f : A -> Coro St B)
    (w : World St) :
  run d (bind m f) w =
  match run d m w with
  | (Ok a, w') => run d (f a) w'
  | (Err e, w') => (Err e, w')
  end.
Proof.
  revert w. induction m as [a|e|k IH|s k IH|c k IH|fmt args k IH|R c k IH];
    intros w; cbn; auto.
  destruct (do_new d c w) as [r w']. apply IH.
Qed.

(** A [try] whose handlers only raise another exception changes the
    exception that comes out, and nothing else. *)
Lemma run_try_except_reraise {St A} (d : Driver) (m : Coro St A)
    (f : Exc -> option Exc) (w : World St) :
  run d (try_except m (fun e => option_map Raise (f e))) w =
  match run d m w with
  | (Ok a, w') => (Ok a, w')
  | (Err e, w') => (Err (default e (f e)), w')
  end.
Proof.
  revert w. induction m as [a|e|k IH|s k IH|c k IH|fmt args k IH|R c k IH];
    intros w; cbn; auto.
  - destruct (f e); reflexivity.
  - destruct (do_new d c w) as [r w']. apply IH.
Qed.

Lemma run_translate_exceptions {St A} (d : Driver) (m : Coro St A) (w : World St) :
  run d (translate_exceptions m) w =
  match run d m w with
  | (Ok a, w') => (Ok a, w')
  | (Err e, w') => (Err (default e (translate e)), w')
  end.
Proof. apply run_try_except_reraise. Qed.

(** ** The transaction state machine *)

Section EndOfTransaction.
Import TransactionWrapperObj.
Variable d : Driver.

Lemma run_commit (w : World t) :
  run d TransactionWrapper.commit w =
  match _transaction (obj w) with
  | None => (Err invalid_state, w)
  | Some tx =>
      if _finalized (obj w) then (Err already_finalised, w)
      else match on_await d unit (trace w) (transaction_aexit tx false) with
           | Ok u =>
               (Ok tt,
                mkWorld (set__finalized true (obj w)) (next_id w)
                  (trace w ++ [EvAwait (transaction_aexit tx false) (Ok u)]))
           | Err e => (Err e, reply (transaction_aexit tx false) (Err e) w)
           end
  end.
Proof.
  unfold TransactionWrapper.commit. cbn.
  destruct (_transaction (obj w)) as [tx|]; [|reflexivity].
  destruct (_finalized (obj w)); [reflexivity|]. cbn.
  destruct (on_await d unit (trace w) (transaction_aexit tx false)); reflexivity.
Qed.

Lemma run_rollback (w : World t) :
  run d TransactionWrapper.rollback w =
  match _transaction (obj w) with
  | None => (Err invalid_state, w)
  | Some tx =>
      if _finalized (obj w) then (Err already_finalised, w)
      else match on_await d unit (trace w) (transaction_aexit tx true) with
           | Ok u =>
               (Ok tt,
                mkWorld (set__finalized true (obj w)) (next_id w)
                  (trace w ++ [EvAwait (transaction_aexit tx true) (Ok u)]))
           | Err e => (Err e, reply (transaction_aexit tx true) (Err e) w)
           end
  end.
Proof.
  unfold TransactionWrapper.rollback. cbn.
  destruct (_transaction (obj w)) as [tx|]; [|reflexivity].
  destruct (_finalized (obj w)); [reflexivity|]. cbn.
  destruct (on_await d unit (trace w) (transaction_aexit tx true)); reflexivity.
Qed.

(** [begin] never touches the finalized flag, and never clears the
    transaction handle. *)
Lemma run_begin_state (w w' : World t) (r : Outcome unit) :
  run d TransactionWrapper.begin w = (r, w') ->
  _finalized (obj w') = _finalized (obj w) /\
  (is_Some (_transaction (obj w)) -> is_Some (_transaction (obj w'))).
Proof.
  unfold TransactionWrapper.begin. rewrite run_translate_exceptions.
  unfold TransactionWrapper.begin_body. cbn.
  destruct (_connection (obj w)) as [conn|]; cbn.
  - unfold do_new. destruct (on_new d (trace w) (new_transaction conn)); cbn.
    + intros [= <- <-]. cbn. auto.
    + match goal with
      | |- context [on_await d unit ?t ?c] => destruct (on_await d unit t c)
      end; intros [= <- <-]; cbn; eauto.
  - intros [= <- <-]. auto.
Qed.

(** One call keeps the invariant, counting it when it ended the
    transaction. *)
Lemma tx_call_inv (m : TxMethod) (n : nat) (w w' : World t) (r : Outcome unit) :
  tx_inv n (obj w) ->
  run d (tx_call m) w = (r, w') ->
  tx_inv (n + (if ends m && succeeded r then 1 else 0))%nat (obj w').
Proof.
  intros (Hle & Hfin & Htx) Hrun.
  assert (Hbegin : run d TransactionWrapper.begin w = (r, w') ->
                   tx_inv (n + 0) (obj w')).
  { intros Hb. apply run_begin_state in Hb as [Hf Ht].
    rewrite Nat.add_0_r. unfold tx_inv. rewrite Hf. intuition. }
  assert (Hend : forall rb,
    match _transaction (obj w) with
    | None => (Err invalid_state, w)
    | Some tx =>
        if _finalized (obj w) then (Err already_finalised, w)
        else match on_await d unit (trace w) (transaction_aexit tx rb) with
             | Ok u =>
                 (Ok tt,
                  mkWorld (set__finalized true (obj w)) (next_id w)
                    (trace w ++ [EvAwait (transaction_aexit tx rb) (Ok u)]))
             | Err e => (Err e, reply (transaction_aexit tx rb) (Err e) w)
             end
    end = (r, w') ->
    tx_inv (n + (if succeeded r then 1 else 0)) (obj w')).
  { intros rb. destruct (_transaction (obj w)) as [tx|] eqn:Etx.
    - destruct (_finalized (obj w)) eqn:Ef.
      + intros [= <- <-]. cbn. rewrite Nat.add_0_r. unfold tx_inv.
        rewrite Ef, Etx. intuition.
      + destruct (on_await d unit (trace w) (transaction_aexit tx rb)).
        * intros [= <- <-]. cbn. unfold tx_inv. cbn. rewrite Etx.
          assert (n = 0%nat) as ->.
          { destruct n as [|[|n]]; [reflexivity| |lia].
            destruct Hfin as [_ Hfin]. discriminate (Hfin eq_refl). }
          split; [lia|]. split; [tauto|eauto].
        * intros [= <- <-]. cbn. rewrite Nat.add_0_r. unfold tx_inv.
          rewrite Ef, Etx. intuition.
    - intros [= <- <-]. cbn. rewrite Nat.add_0_r. unfold tx_inv.
      rewrite Etx. intuition. }
  destruct m; cbn [tx_call ends andb] in *; auto;
    unfold TransactionWrapper.savepoint, TransactionWrapper.release_savepoint,
      TransactionWrapper.savepoint_rollback in Hrun; auto;
    first [ rewrite run_commit in Hrun | rewrite run_rollback in Hrun ];
    eapply Hend; eassumption.
Qed.

Lemma tx_calls_inv (ms : list TxMethod) (n : nat) (w : World t) :
  tx_inv n (obj w) ->
  tx_inv (n + ended_ok (tx_calls d ms w).1)%nat (obj (tx_calls d ms w).2).
Proof.
  revert n w. induction ms as [|m ms IH]; intros n w Hinv.
  - cbn. rewrite Nat.add_0_r. exact Hinv.
  - cbn [tx_calls]. destruct (run d (tx_call m) w) as [r w1] eqn:Hrun.
    specialize (IH _ w1 (tx_call_inv m n w w1 r Hinv Hrun)).
    destruct (tx_calls d ms w1) as [rs w2]. cbn [fst snd] in *.
    cbn [ended_ok]. rewrite Nat.add_assoc. exact IH.
Qed.

End EndOfTransaction.

(** C1.  On every wrapper, whatever the driver does: [commit()] and
    [rollback()] raise [TransactionManagementError("Transaction is in
    invalid state")] while the transaction handle is still [None], and
    leave the wrapper as it was; after any sequence of calls on a wrapper
    that started out as [__init__] leaves it, if one commit or rollback
    of the sequence returned normally then [commit()] and [rollback()]
    raise [TransactionManagementError("Transaction already finalised")];
    and at most one commit or rollback of the sequence returned
    normally. *)
Theorem commit_rollback_finalize_once (d : Driver)
    (w0 : World TransactionWrapperObj.t) (ms : list TxMethod) :
  not_started (obj w0) ->
  let rs := (tx_calls d ms w0).1 in
  let w := (tx_calls d ms w0).2 in
  (forall w1 : World TransactionWrapperObj.t,
     TransactionWrapperObj._transaction (obj w1) = None ->
     run d TransactionWrapper.commit w1 = (Err invalid_state, w1) /\
     run d TransactionWrapper.rollback w1 = (Err invalid_state, w1)) /\
  ((0 < ended_ok rs)%nat ->
     run d TransactionWrapper.commit w = (Err already_finalised, w) /\
     run d TransactionWrapper.rollback w = (Err already_finalised, w)) /\
  (ended_ok rs <= 1)%nat.
Proof.
  intros [Htx Hfin] rs w. split; [|split].
  - intros w1 H1. rewrite run_commit, run_rollback, H1. auto.
  - intros Hpos.
    assert (Hinv : tx_inv 0 (obj w0)).
    { unfold tx_inv. rewrite Hfin. repeat split; [lia|discriminate..]. }
    apply (tx_calls_inv d ms) in Hinv. fold rs w in Hinv. cbn in Hinv.
    destruct Hinv as (Hle & Hiff & Hsome).
    assert (Hf : TransactionWrapperObj._finalized (obj w) = true)
      by (apply Hiff; lia).
    destruct (Hsome Hf) as [tx Etx].
    rewrite run_commit, run_rollback, Etx, Hf. auto.
  - assert (Hinv : tx_inv 0 (obj w0)).
    { unfold tx_inv. rewrite Hfin. repeat split; [lia|discriminate..]. }
    apply (tx_calls_inv d ms) in Hinv. fold rs w in Hinv. cbn in Hinv.
    apply Hinv.
Qed.

Lemma commit_rollback_finalize_once_witness :
  not_started sample_wrapper /\
  ended_ok (tx_calls driver_ok
              [m_commit; m_begin; m_commit; m_rollback; m_begin; m_commit]
              (world_of sample_wrapper)).1 = 1%nat /\
  run driver_ok TransactionWrapper.rollback
    (tx_calls driver_ok
       [m_commit; m_begin; m_commit; m_rollback; m_begin; m_commit]
       (world_of sample_wrapper)).2
  = (Err already_finalised,
     (tx_calls driver_ok
        [m_commit; m_begin; m_commit; m_rollback; m_begin; m_commit]
        (world_of sample_wrapper)).2).
Proof.
  split; [split; reflexivity|]. split; [reflexivity|].
  apply (commit_rollback_finalize_once driver_ok (world_of sample_wrapper)
           [m_commit; m_begin; m_commit; m_rollback; m_begin; m_commit]).
  - split; reflexivity.
  - vm_compute. lia.
Defined.

(** C10.  On an active wrapper (handle set, not finalized), [commit()]
    and [rollback()] reach the driver call with the finalized flag still
    false; if the driver call raises, the exception comes out and the
    wrapper is unchanged, its flag false; the flag becomes true only once
    the driver call has returned. *)
Theorem failed_end_leaves_unfinalized (d : Driver)
    (w : World TransactionWrapperObj.t) (tx : TxRef) (rb : bool) :
  TransactionWrapperObj._transaction (obj w) = Some tx ->
  TransactionWrapperObj._finalized (obj w) = false ->
  let m := if rb then TransactionWrapper.rollback else TransactionWrapper.commit in
  let call := transaction_aexit tx rb in
  (exists k, segment d m w = Suspended call k w /\
     (forall e w2, segment d (k (Err e)) w2 = Finished (Err e) w2) /\
     (forall u w2, segment d (k (Ok u)) w2 =
        Finished (Ok tt)
          (mkWorld (TransactionWrapperObj.set__finalized true (obj w2))
             (next_id w2) (trace w2)))) /\
  (forall e, on_await d unit (trace w) call = Err e ->
     run d m w = (Err e, reply call (Err e) w) /\
     TransactionWrapperObj._finalized (obj (run d m w).2) = false) /\
  (forall u, on_await d unit (trace w) call = Ok u ->
     (run d m w).1 = Ok tt /\
     TransactionWrapperObj._finalized (obj (run d m w).2) = true).
Proof.
  intros Etx Ef m call. split; [|split].
  - destruct rb; subst m call; cbn; rewrite Etx, Ef;
      eexists; (split; [reflexivity|]); split; reflexivity.
  - intros e He. destruct rb; subst m call;
      rewrite ?run_commit, ?run_rollback, Etx, Ef, He; cbn; auto.
  - intros u Hu. destruct rb; subst m call;
      rewrite ?run_commit, ?run_rollback, Etx, Ef, Hu; cbn; auto.
Qed.

Lemma failed_end_leaves_unfinalized_witness :
  run driver_exit_fails TransactionWrapper.commit
    (tx_calls driver_exit_fails [m_begin] (world_of sample_wrapper)).2
  = (Err (Native connection_lost),
     reply (transaction_aexit 10%nat false) (Err (Native connection_lost))
       (tx_calls driver_exit_fails [m_begin] (world_of sample_wrapper)).2) /\
  TransactionWrapperObj._finalized
    (obj (run driver_exit_fails TransactionWrapper.commit
            (tx_calls driver_exit_fails [m_begin] (world_of sample_wrapper)).2).2)
  = false.
Proof.
  apply (failed_end_leaves_unfinalized driver_exit_fails
           (tx_calls driver_exit_fails [m_begin] (world_of sample_wrapper)).2
           10%nat false); reflexivity.
Defined.

(** ** The exception translator *)

(** What the translator raises is a taxonomy error built around the
    driver exception it caught, and never [DBConnectionError]. *)
Lemma translate_Some (exc exc' : Exc) :
  translate exc = Some exc' ->
  exists k e, exc = Native e /\ exc' = Tortoise k (Cause e) /\
              k <> exceptions.DBConnectionError.
Proof.
  destruct exc as [e| | | | |]; cbn; try discriminate.
  repeat match goal with
         | |- context [if ?b then _ else _] => destruct b
         end; intros [= <-]; eexists _, e; repeat split; discriminate.
Qed.

(** Translating twice is translating once: what comes out of the
    translator is caught by none of its clauses. *)
Lemma translate_stable (exc : Exc) :
  translate (default exc (translate exc)) = None.
Proof.
  destruct (translate exc) as [exc'|] eqn:E; cbn; [|exact E].
  apply translate_Some in E as (k & e & _ & -> & _). reflexivity.
Qed.

Lemma run_translated_stable {St A} (d : Driver) (m : Coro St A) (w : World St)
    (exc : Exc) :
  (run d (translate_exceptions m) w).1 = Err exc -> translate exc = None.
Proof.
  rewrite run_translate_exceptions.
  destruct (run d m w) as [[a|e] w']; cbn; [discriminate|].
  intros [= <-]. apply translate_stable.
Qed.

(** C2, as the client has it.  [_translate_exceptions] changes nothing
    but the exception that comes out of the wrapped call: a driver
    exception is re-raised as exactly one of three taxonomy errors
    ([OperationalError] for SyntaxErrorOrAccessRuleViolation,
    DataException or UndefinedTable; else [IntegrityError] for psycopg's
    IntegrityError; else [TransactionManagementError] for
    InvalidTransactionState or InFailedSqlTransaction), built around the
    exception caught; every other exception propagates unchanged; the
    translator never raises [DBConnectionError]; and no call of
    [execute_query], [execute_insert], [execute_many], [begin] or
    [create_connection] ends with an exception the translator would
    still catch. *)
Theorem translator_three_errors :
  (forall St A (d : Driver) (func : Coro St A) (w : World St),
     run d (_translate_exceptions func) w =
     match run d func w with
     | (Ok a, w') => (Ok a, w')
     | (Err e, w') => (Err (default e (translate e)), w')
     end) /\
  (forall e : BackendExc,
     translate (Native e) =
     if isinstance e errors.SyntaxErrorOrAccessRuleViolation
        || isinstance e errors.DataException
        || isinstance e errors.UndefinedTable
     then Some (OperationalError (Cause e))
     else if isinstance e errors.IntegrityError
     then Some (IntegrityError (Cause e))
     else if isinstance e errors.InvalidTransactionState
             || isinstance e errors.InFailedSqlTransaction
     then Some (TransactionManagementError (Cause e))
     else None) /\
  (forall exc exc', translate exc = Some exc' ->
     exists k e, exc = Native e /\ exc' = Tortoise k (Cause e) /\
                 k <> exceptions.DBConnectionError) /\
  (forall St (C : Client St) (d : Driver) (w : World St) exc,
     (forall q v rf, (run d (execute_query q v rf) w).1 = Err exc ->
        translate exc = None) /\
     (forall q v, (run d (execute_insert q v) w).1 = Err exc ->
        translate exc = None) /\
     (forall q v, (run d (execute_many q v) w).1 = Err exc ->
        translate exc = None)) /\
  (forall (d : Driver) (w : World TransactionWrapperObj.t) exc,
     (run d TransactionWrapper.begin w).1 = Err exc -> translate exc = None) /\
  (forall (d : Driver) (w : World PsycopgClientObj.t) with_db exc,
     (run d (PsycopgClient.create_connection with_db) w).1 = Err exc ->
     translate exc = None).
Proof.
  split; [intros; apply run_try_except_reraise|].
  split.
  { intros e. cbn. unfold isinstance_any. cbn. rewrite !orb_false_r.
    rewrite !orb_assoc. reflexivity. }
  split; [exact translate_Some|].
  split; [|split].
  - intros St C d w exc. split; [|split].
    + intros q v rf. apply run_translated_stable.
    + intros q v. unfold execute_insert. rewrite run_bind.
      destruct (run d (execute_query q (Some v) dict_row) w) as [[[n rows]|e] w'] eqn:E.
      * destruct rows; cbn; discriminate.
      * cbn. intros [= <-].
        apply (run_translated_stable d (execute_query_body q (Some v) dict_row) w).
        unfold execute_query in E. rewrite E. reflexivity.
    + intros q v. apply run_translated_stable.
  - intros d w exc. apply run_translated_stable.
  - intros d w with_db exc. apply run_translated_stable.
Qed.

(** C2 as stated fails: when the database cannot be reached, the
    exception of the driver comes out of [execute_query] as the driver
    raised it, not as [DBConnectionError] nor as any taxonomy error. *)
Lemma unreachable_database_not_translated :
  (run driver_unreachable (execute_query "SELECT 1" None dict_row)
     (world_of sample_client)).1 = Err (Native connection_refused) /\
  translate (Native connection_refused) = None /\
  is_taxonomy (Native connection_refused) = false.
Proof. repeat split; vm_compute; reflexivity. Qed.

Lemma translator_three_errors_witness :
  translate (Native unique_violation) = Some (IntegrityError (Cause unique_violation)) /\
  run driver_ok (_translate_exceptions (A := unit) (Raise (Native unique_violation)))
    (world_of sample_client)
  = (Err (IntegrityError (Cause unique_violation)), world_of sample_client).
Proof.
  split.
  - rewrite (proj1 (proj2 translator_three_errors)). reflexivity.
  - rewrite (proj1 translator_three_errors). reflexivity.
Defined.

(** ** Nested transactions and the bound connection *)

Section Nesting.
Import TransactionWrapperObj.

(** What [_in_transaction()] on a wrapper builds. *)
Lemma run_in_transaction (d : Driver) (w w' : World t) (ctx : TransactionContext) :
  run d TransactionWrapper._in_transaction w = (Ok ctx, w') ->
  ctx = NestedTransactionContext
          (mk (_connection (obj w)) (next_id w) (log (obj w))
              (connection_name (obj w)) None false (OfWrapper (obj w))) /\
  obj w' = obj w.
Proof.
  unfold TransactionWrapper._in_transaction, TransactionWrapper.__init__.
  cbn. unfold do_new. destruct (on_new d (trace w) new_Lock); cbn.
  - discriminate.
  - intros [= <- <-]. auto.
Qed.

(** No transaction method rebinds the connection of its wrapper. *)
Lemma tx_call_connection (d : Driver) (m : TxMethod) (w : World t) :
  _connection (obj (run d (tx_call m) w).2) = _connection (obj w).
Proof.
  assert (Hbegin : _connection (obj (run d TransactionWrapper.begin w).2)
                   = _connection (obj w)).
  { unfold TransactionWrapper.begin. rewrite run_translate_exceptions.
    unfold TransactionWrapper.begin_body. cbn.
    destruct (_connection (obj w)) as [conn|] eqn:Hconn; cbn; [|exact Hconn].
    unfold do_new. destruct (on_new d (trace w) (new_transaction conn)); cbn;
      [exact Hconn|].
    match goal with
    | |- context [on_await d unit ?tr ?c] => destruct (on_await d unit tr c)
    end; cbn; exact Hconn. }
  destruct m; cbn [tx_call];
    unfold TransactionWrapper.savepoint, TransactionWrapper.release_savepoint,
      TransactionWrapper.savepoint_rollback;
    try exact Hbegin;
    rewrite ?run_commit, ?run_rollback;
    destruct (_transaction (obj w)) as [tx|]; try reflexivity;
    destruct (_finalized (obj w)); try reflexivity;
    match goal with
    | |- context [on_await d unit ?tr ?c] => destruct (on_await d unit tr c)
    end; reflexivity.
Qed.

Lemma tx_calls_connection (d : Driver) (ms : list TxMethod) (w : World t) :
  _connection (obj (tx_calls d ms w).2) = _connection (obj w).
Proof.
  revert w. induction ms as [|m ms IH]; intros w; [reflexivity|].
  cbn [tx_calls]. pose proof (tx_call_connection d m w) as Hm.
  destruct (run d (tx_call m) w) as [r w1]. specialize (IH w1).
  destruct (tx_calls d ms w1) as [rs w2]. cbn [fst snd] in *. congruence.
Qed.

Lemma nested_from_connection (root w : t) :
  nested_from root w -> _connection w = _connection root.
Proof.
  induction 1 as [|d ms w _ IH|d w ctx w' _ IH Hrun]; [reflexivity| |].
  - rewrite tx_calls_connection. exact IH.
  - apply run_in_transaction in Hrun as [-> _]. exact IH.
Qed.

End Nesting.

(** C3.  [_in_transaction()] on a wrapper builds a new wrapper around the
    very connection of the wrapper it is called on, with that wrapper as
    parent and a lock of its own, and leaves the parent as it was; no
    transaction method rebinds the connection; so every wrapper reached
    by nesting, however the wrappers on the way were used, has the
    connection of the wrapper the nesting started from.  [acquire_connection()] on a wrapper is a
    [ConnectionWrapper] over the wrapper's own lock and the wrapper
    itself; entering it awaits that lock and nothing else, checks no
    connection out of a pool, and yields the wrapper's connection. *)
Theorem nested_wrapper_shares_connection :
  (forall (d : Driver) (w w' : World TransactionWrapperObj.t) ctx,
     run d TransactionWrapper._in_transaction w = (Ok ctx, w') ->
     ctx = NestedTransactionContext (context_connection ctx) /\
     TransactionWrapperObj._connection (context_connection ctx)
       = TransactionWrapperObj._connection (obj w) /\
     TransactionWrapperObj._parent (context_connection ctx) = OfWrapper (obj w) /\
     TransactionWrapperObj._lock (context_connection ctx) = next_id w /\
     obj w' = obj w) /\
  (forall root w : TransactionWrapperObj.t,
     nested_from root w ->
     TransactionWrapperObj._connection w = TransactionWrapperObj._connection root) /\
  (forall self : TransactionWrapperObj.t,
     acquire_connection self
       = ConnectionWrapper (TransactionWrapperObj._lock self) self) /\
  (forall St (d : Driver) (self : TransactionWrapperObj.t) (w : World St),
     let lock := TransactionWrapperObj._lock self in
     let r := run d (ConnectionWrapper_aenter lock self) w in
     let answer := on_await d unit (trace w) (lock_acquire lock) in
     trace r.2 = (trace w ++ [EvAwait (lock_acquire lock) answer])%list /\
     List.filter is_checkout (trace r.2) = List.filter is_checkout (trace w) /\
     obj r.2 = obj w /\
     r.1 = match answer with
           | Ok _ => Ok (TransactionWrapperObj._connection self)
           | Err e => Err e
           end).
Proof.
  split; [|split; [|split]].
  - intros d w w' ctx Hrun.
    apply run_in_transaction in Hrun as [-> ->]. cbn. auto.
  - exact nested_from_connection.
  - reflexivity.
  - intros St d self w lock r answer. subst r. cbn. fold lock. fold answer.
    destruct answer as [[]|e]; cbn;
      rewrite List.filter_app; cbn; rewrite app_nil_r; auto.
Qed.

Lemma nested_wrapper_shares_connection_witness :
  TransactionWrapperObj._connection
    (context_connection
       (NestedTransactionContext
          (TransactionWrapperObj.mk (Some 1%nat) 10%nat 0%nat "default" None false
             (OfWrapper sample_wrapper))))
  = TransactionWrapperObj._connection sample_wrapper.
Proof.
  apply (proj1 nested_wrapper_shares_connection driver_ok
           (world_of sample_wrapper)
           (mkWorld sample_wrapper 11%nat [EvNew new_Lock (Ok 10%nat)])).
  reflexivity.
Defined.

(** ** Creating the pool *)

Section CreateConnection.
Import PsycopgClientObj.
Variable d : Driver.

Lemma run_create_connection_pool_exists (w : World t) (with_db : bool) (p : PoolRef) :
  _pool (obj w) = Some p ->
  run d (PsycopgClient.create_connection with_db) w = (Err pool_already_created, w).
Proof.
  intros Hp. unfold PsycopgClient.create_connection.
  rewrite run_translate_exceptions.
  unfold PsycopgClient.create_connection_body. cbn. rewrite Hp. reflexivity.
Qed.

End CreateConnection.

(** C6, as the client has it.  When a pool already exists,
    [create_connection(with_db)] raises [RuntimeError("Connection pool
    already created")] at once: no call reaches the driver and the
    client, its pool included, is left as it was.  The translator lets
    this error through. *)
Theorem create_connection_twice_fails (d : Driver) (w : World PsycopgClientObj.t)
    (with_db : bool) (p : PoolRef) :
  PsycopgClientObj._pool (obj w) = Some p ->
  run d (PsycopgClient.create_connection with_db) w = (Err pool_already_created, w) /\
  translate pool_already_created = None.
Proof.
  intros Hp. split; [|reflexivity].
  now apply run_create_connection_pool_exists with (p := p).
Qed.

Lemma create_connection_twice_fails_witness :
  run driver_ok (PsycopgClient.create_connection true) (world_of pooled_client)
  = (Err pool_already_created, world_of pooled_client) /\
  translate pool_already_created = None.
Proof.
  apply (create_connection_twice_fails driver_ok (world_of pooled_client) true 3%nat).
  reflexivity.
Defined.

(** C6 as stated fails: the failure of the second [create_connection]
    is a [RuntimeError], which is none of the four taxonomy errors. *)
Lemma create_connection_twice_not_taxonomy :
  (run driver_ok (PsycopgClient.create_connection true)
     (world_of pooled_client)).1 = Err pool_already_created /\
  is_taxonomy pool_already_created = false.
Proof. split; vm_compute; reflexivity. Qed.

(** ** The TLS mode *)

Section TLS.
Import PsycopgClientObj.

(** [make_conninfo] keeps the TLS mode of the settings it is given. *)
Lemma sslmode_of_conninfo (self : t) (with_db : bool)
    (settings : gmap string PyVal) :
  sslmode_of (PsycopgClient.conninfo_of self with_db settings)
  = kept (settings !! "sslmode").
Proof.
  unfold PsycopgClient.conninfo_of, PsycopgClient.make_conninfo, sslmode_of.
  rewrite lookup_omap. rewrite !lookup_insert_ne by done.
  destruct (settings !! "sslmode") as [[]|]; reflexivity.
Qed.

Lemma sslmode_of_tls_settings (self : t) (ssl : PyVal) :
  PsycopgClient.tls_settings self ssl !! "sslmode" =
  if truthy ssl
  then Some (VStr (if PsycopgClient.verifies_hostname ssl
                   then "verify-full" else "require"))
  else server_settings self !! "sslmode".
Proof.
  unfold PsycopgClient.tls_settings. destruct (truthy ssl).
  - destruct (PsycopgClient.verifies_hostname ssl);
      rewrite lookup_insert_eq; reflexivity.
  - rewrite !lookup_insert_ne by done. reflexivity.
Qed.

(** The value popped from [extra] is its ["ssl"] entry, [None] without. *)
Lemma popped_ssl (self : t) :
  (PsycopgClient.popped_extra self).1 = default VNone (extra self !! "ssl").
Proof.
  unfold PsycopgClient.popped_extra, PsycopgClient.pop, PsycopgClient.setdefault.
  cbn. destruct (extra self !! "timeout"); [reflexivity|].
  rewrite lookup_insert_ne by done. reflexivity.
Qed.

End TLS.

(** C9, as the client has it.  The TLS mode of the connection parameters
    [create_connection] builds: a supplied [SSLContext] gives
    ["verify-full"] when it checks host names and ["require"] when it
    does not, whatever the server settings held; when no context is
    supplied ([ssl] absent or [None]) the mode is the one the server
    settings already held, and is unset exactly when they held none.
    For the other values [ssl] can hold, the test is Python's truth
    value: one taken for true gives ["require"], one taken for false
    leaves the mode of the server settings. *)
Theorem tls_mode_of_connection (self : PsycopgClientObj.t) (with_db : bool) :
  let ssl := default VNone (PsycopgClientObj.extra self !! "ssl") in
  let settings := PsycopgClient.tls_settings self (PsycopgClient.popped_extra self).1 in
  let mode := sslmode_of (PsycopgClient.conninfo_of self with_db settings) in
  (PsycopgClient.popped_extra self).1 = ssl /\
  mode = (if truthy ssl
          then Some (VStr (if PsycopgClient.verifies_hostname ssl
                           then "verify-full" else "require"))
          else kept (PsycopgClientObj.server_settings self !! "sslmode")) /\
  (forall check_hostname,
     ssl = VSSLContext check_hostname ->
     mode = Some (VStr (if check_hostname then "verify-full" else "require"))) /\
  (ssl = VNone ->
     mode = kept (PsycopgClientObj.server_settings self !! "sslmode") /\
     (PsycopgClientObj.server_settings self !! "sslmode" = None -> mode = None)).
Proof.
  intros ssl settings mode.
  assert (Hssl : (PsycopgClient.popped_extra self).1 = ssl) by apply popped_ssl.
  assert (Hmode : mode = (if truthy ssl
          then Some (VStr (if PsycopgClient.verifies_hostname ssl
                           then "verify-full" else "require"))
          else kept (PsycopgClientObj.server_settings self !! "sslmode"))).
  { subst mode settings. rewrite sslmode_of_conninfo, sslmode_of_tls_settings, Hssl.
    destruct (truthy ssl); [|reflexivity].
    destruct (PsycopgClient.verifies_hostname ssl); reflexivity. }
  split; [exact Hssl|]. split; [exact Hmode|]. split.
  - intros check_hostname E. rewrite Hmode, E. reflexivity.
  - intros E. rewrite Hmode, E. cbn. split; [reflexivity|].
    intros ->. reflexivity.
Qed.

Lemma tls_mode_of_connection_witness :
  sslmode_of (PsycopgClient.conninfo_of tls_client true
                (PsycopgClient.tls_settings tls_client
                   (PsycopgClient.popped_extra tls_client).1))
  = Some (VStr "verify-full").
Proof.
  exact (proj1 (proj2 (proj2 (tls_mode_of_connection tls_client true)))
           true eq_refl).
Defined.

(** C9 as stated fails: with no SSL context supplied the TLS mode is not
    left unset when the server settings name one, so the context alone
    does not determine it. *)
Lemma tls_mode_without_context_is_preset :
  PsycopgClientObj.extra plain_client !! "ssl" = None /\
  PsycopgClientObj.extra sample_client !! "ssl" = None /\
  sslmode_of (PsycopgClient.conninfo_of plain_client true
                (PsycopgClient.tls_settings plain_client
                   (PsycopgClient.popped_extra plain_client).1))
  = Some (VStr "disable") /\
  sslmode_of (PsycopgClient.conninfo_of sample_client true
                (PsycopgClient.tls_settings sample_client
                   (PsycopgClient.popped_extra sample_client).1))
  = None.
Proof. repeat split; vm_compute; reflexivity. Qed.

(** ** Opening the pool *)

#[local] Arguments PsycopgClient.keyword_clash : simpl never.
#[local] Arguments PsycopgClient.tls_settings : simpl never.
#[local] Arguments PsycopgClient.popped_extra : simpl never.
#[local] Arguments PsycopgClient.template_of : simpl never.
#[local] Arguments PsycopgClient.conninfo_of : simpl never.

Section OpenPool.
Import PsycopgClientObj.
Variable d : Driver.

Lemma run_open_pool (template extra : gmap string PyVal) (w : World t) :
  template !! "open" = None ->
  run d (PsycopgClient.open_pool template extra) w =
  match on_new d (trace w) (new_AsyncConnectionPool template) with
  | Some e =>
      (Err e,
       mkWorld (obj w) (next_id w)
         (trace w ++ [EvNew (new_AsyncConnectionPool template) (Err e)]))
  | None =>
      match on_await d unit (trace (constructed template w))
              (pool_open (next_id w) None None) with
      | Err e =>
          (Err e, reply (pool_open (next_id w) None None) (Err e)
                    (constructed template w))
      | Ok _ =>
          match on_await d unit (trace (stored template w)) (probe extra w) with
          | Err e => (Err e, reply (probe extra w) (Err e) (stored template w))
          | Ok _ =>
              (Ok tt,
               do_log "Created connection pool %s with params: %s"
                 [VObj (next_id w); VDict template]
                 (reply (probe extra w) (Ok tt) (stored template w)))
          end
      end
  end.
Proof.
  intros Hopen. unfold PsycopgClient.open_pool, PsycopgClient.create_pool.
  rewrite Hopen. unfold stored, constructed, probe, reply, do_log.
  cbn. unfold do_new.
  destruct (on_new d (trace w) (new_AsyncConnectionPool template)) as [e|];
    cbn; [reflexivity|].
  destruct (on_await d unit _ (pool_open (next_id w) None None)) as [[]|e];
    cbn; [|reflexivity].
  match goal with
  | |- context [on_await d unit ?tr ?c] =>
      destruct (on_await d unit tr c) as [[]|e]
  end; reflexivity.
Qed.

Lemma run_create_connection (w : World t) (with_db : bool) :
  _pool (obj w) = None ->
  PsycopgClient.keyword_clash (settings_of (obj w)) = [] ->
  run d (PsycopgClient.create_connection with_db) w =
  match run d (PsycopgClient.open_pool (built_template (obj w) with_db)
                 (extra_of (obj w))) (prepared with_db w) with
  | (Ok a, w') => (Ok a, w')
  | (Err e, w') => (Err (connect_failure (database (obj w)) e), w')
  end.
Proof.
  intros Hpool Hclash. unfold PsycopgClient.create_connection.
  rewrite run_translate_exceptions.
  unfold PsycopgClient.create_connection_body. cbn. rewrite Hpool. cbn.
  fold (settings_of (obj w)). rewrite Hclash. cbn.
  fold (extra_of (obj w)). fold (built_template (obj w) with_db).
  fold (prepared with_db w).
  unfold PsycopgClient.connect_handler.
  rewrite run_try_except_reraise.
  destruct (run d _ (prepared with_db w)) as [[a|e] w']; reflexivity.
Qed.

End OpenPool.

(** The timeout in what is left of [extra] is the configured one, or
    the default of the client. *)
Lemma extra_timeout (self : PsycopgClientObj.t) :
  extra_of self !! "timeout" =
  Some (default PsycopgClient.default_timeout
          (PsycopgClientObj.extra self !! "timeout")).
Proof.
  unfold extra_of, PsycopgClient.popped_extra, PsycopgClient.pop,
    PsycopgClient.setdefault. cbn.
  rewrite lookup_delete_ne by done.
  destruct (PsycopgClientObj.extra self !! "timeout") eqn:E; cbn.
  - exact E.
  - apply lookup_insert_eq.
Qed.

(** An exception the [try] block catches comes out as the connection
    error, whatever its other classes. *)
Lemma connect_failure_unreachable (database : option string) (e : BackendExc) :
  unreachable e = true ->
  connect_failure database (Native e) =
  DBConnectionError
    (Msg ("Can't establish connection to database " +:+ PsycopgClient.fmt database)).
Proof.
  unfold connect_failure, PsycopgClient.connect_error, unreachable.
  intros ->. reflexivity.
Qed.

(** C4.  On a client without a pool (and whose configuration gives no
    keyword of [make_conninfo] or of the pool twice, which Python refuses
    before any connection is tried), [create_connection(with_db)]
    constructs the pool from the template, with the timeout [t] that is
    the configured one, 30 by default, and opens it; once both have
    returned it performs the liveness probe, [open(wait=True, timeout=t)]
    on that same pool, with that same timeout.  When the probe returns,
    [create_connection] logs and returns; when the construction, the
    opening or the probe raises, nothing more is called and the
    exception comes out through the clause of the [try] block: a driver
    exception of class [InvalidCatalogName] (the database does not
    exist) or [PoolTimeout] (the pool could not reach it in time) as
    [DBConnectionError("Can't establish connection to database ...")]. *)
Theorem create_connection_unreachable (d : Driver)
    (w : World PsycopgClientObj.t) (with_db : bool) :
  let self := obj w in
  let template := built_template self with_db in
  let extra := extra_of self in
  let timeout := default PsycopgClient.default_timeout
                   (PsycopgClientObj.extra self !! "timeout") in
  let w0 := prepared with_db w in
  let pool := next_id w in
  let ctor := new_AsyncConnectionPool template in
  let opening := pool_open pool None None in
  let probing := pool_open pool (Some true) (Some timeout) in
  let failure := connect_failure (PsycopgClientObj.database self) in
  let result := run d (PsycopgClient.create_connection with_db) w in
  PsycopgClientObj._pool self = None ->
  PsycopgClient.keyword_clash (settings_of self) = [] ->
  template !! "open" = None ->
  (PsycopgClient.default_timeout = VInt 30 /\
   template !! "timeout" = Some timeout /\
   probe extra w0 = probing) /\
  (forall e, unreachable e = true -> failure (Native e) = cannot_connect self) /\
  (forall exc,
     on_new d (trace w) ctor = Some exc ->
     result.1 = Err (failure exc) /\
     trace result.2 = (trace w ++ [EvNew ctor (Err exc)])%list) /\
  (on_new d (trace w) ctor = None ->
   forall exc,
     on_await d unit (trace (constructed template w0)) opening = Err exc ->
     result.1 = Err (failure exc) /\
     trace result.2
     = (trace w ++ [EvNew ctor (Ok pool); EvAwait opening (Err exc)])%list) /\
  (on_new d (trace w) ctor = None ->
   on_await d unit (trace (constructed template w0)) opening = Ok tt ->
   let answer := on_await d unit (trace (stored template w0)) probing in
   PsycopgClientObj._pool (obj result.2) = Some pool /\
   match answer with
   | Ok _ =>
       result.1 = Ok tt /\
       trace result.2
       = (trace w ++ [EvNew ctor (Ok pool); EvAwait opening (Ok tt);
                      EvAwait probing (Ok tt);
                      EvLog "Created connection pool %s with params: %s"
                        [VObj pool; VDict template]])%list
   | Err exc =>
       result.1 = Err (failure exc) /\
       trace result.2
       = (trace w ++ [EvNew ctor (Ok pool); EvAwait opening (Ok tt);
                      EvAwait probing (Err exc)])%list
   end).
Proof.
  intros self template extra timeout w0 pool ctor opening probing failure result
    Hpool Hclash Hopen.
  assert (Hprobe : probe extra w0 = probing).
  { unfold probe. subst extra. rewrite extra_timeout. reflexivity. }
  assert (Hrun : result
                 = match run d (PsycopgClient.open_pool template extra) w0 with
                   | (Ok a, w') => (Ok a, w')
                   | (Err e, w') => (Err (failure e), w')
                   end)
    by apply (run_create_connection d w with_db Hpool Hclash).
  rewrite (run_open_pool d template extra w0 Hopen) in Hrun.
  rewrite Hprobe in Hrun.
  change (trace w0) with (trace w) in Hrun.
  change (next_id w0) with pool in Hrun.
  fold ctor opening in Hrun.
  split; [|split; [|split; [|split]]].
  - split; [reflexivity|]. split; [|exact Hprobe].
    subst template. unfold built_template, PsycopgClient.template_of.
    apply lookup_union_Some_l. apply extra_timeout.
  - intros e He. subst failure. cbn beta.
    now rewrite connect_failure_unreachable.
  - intros exc Hnew. rewrite Hnew in Hrun. rewrite Hrun. split; reflexivity.
  - intros Hnew exc Hfirst. rewrite Hnew, Hfirst in Hrun. rewrite Hrun.
    split; [reflexivity|]. cbn. rewrite <- app_assoc. reflexivity.
  - intros Hnew Hfirst answer. rewrite Hnew, Hfirst in Hrun. fold answer in Hrun.
    rewrite Hrun. destruct answer as [[]|exc]; cbn;
      (split; [reflexivity|]); (split; [reflexivity|]);
      rewrite <- !app_assoc; reflexivity.
Qed.

Lemma create_connection_unreachable_witness :
  (run driver_probe_times_out (PsycopgClient.create_connection true)
     (world_of sample_client)).1
  = Err (DBConnectionError (Msg "Can't establish connection to database models")) /\
  trace (run driver_probe_times_out (PsycopgClient.create_connection true)
           (world_of sample_client)).2
  = [EvNew (new_AsyncConnectionPool (built_template sample_client true)) (Ok 10%nat);
     EvAwait (pool_open 10%nat None None) (Ok tt);
     EvAwait (pool_open 10%nat (Some true) (Some (VInt 30)))
       (Err (Native pool_timed_out))].
Proof.
  assert (H := create_connection_unreachable driver_probe_times_out
                 (world_of sample_client) true).
  cbv zeta in H.
  destruct H as (_ & _ & _ & _ & H); try (vm_compute; reflexivity).
  destruct (H eq_refl eq_refl) as (_ & Hres & Htrace).
  split; [exact Hres|exact Htrace].
Defined.

(** ** The row count of a query *)

(** The count [execute_query] computes from what the cursor reports. *)
Lemma run_row_count {St} (d : Driver) (view : CursorView) (w : World St) :
  exists n : Z,
    run d (py_int (py_or (opt_int (rowcount view))
                     (py_or (opt_int (rownumber view)) (VInt 0)))) w
    = (Ok n, w) /\
    (forall z, rowcount view = Some z -> z <> 0 -> n = z) /\
    (rowcount view = None \/ rowcount view = Some 0 ->
     forall p, rownumber view = Some p -> p <> 0 -> n = p) /\
    (rowcount view = None \/ rowcount view = Some 0 ->
     rownumber view = None \/ rownumber view = Some 0 -> n = 0).
Proof.
  unfold py_or.
  destruct (rowcount view) as [rc|], (rownumber view) as [rn|]; cbn.
  - destruct (Z.eqb_spec rc 0) as [->|Hrc]; cbn.
    + destruct (Z.eqb_spec rn 0) as [->|Hrn]; cbn;
        eexists; (split; [reflexivity|]); repeat split; intros;
        intuition congruence.
    + eexists; (split; [reflexivity|]); repeat split; intros;
        intuition congruence.
  - destruct (Z.eqb_spec rc 0) as [->|Hrc]; cbn;
      eexists; (split; [reflexivity|]); repeat split; intros;
      intuition congruence.
  - destruct (Z.eqb_spec rn 0) as [->|Hrn]; cbn;
      eexists; (split; [reflexivity|]); repeat split; intros;
      intuition congruence.
  - eexists; (split; [reflexivity|]); repeat split; intros;
      intuition congruence.
Qed.

Lemma run_attempt {St A} (d : Driver) (m : Coro St A) (w : World St) :
  run d (attempt m) w = (Ok (run d m w).1, (run d m w).2).
Proof.
  revert w. induction m as [a|e|k IH|s k IH|c k IH|fmt args k IH|R c k IH];
    intros w; cbn; auto.
  destruct (do_new d c w) as [r w']. apply IH.
Qed.

(** A scoped block that returns normally was entered, its body returned
    normally, and its [__aexit__] was told of no exception and returned. *)
Lemma run_async_with_ok {St X A} (d : Driver) (aenter : Call X)
    (aexit : option Exc -> Call unit) (body : X -> Coro St A)
    (w w' : World St) (a : A) :
  run d (async_with aenter aexit body) w = (Ok a, w') ->
  exists x w1,
    on_await d X (trace w) aenter = Ok x /\
    run d (body x) (reply aenter (Ok x) w) = (Ok a, w1) /\
    w' = reply (aexit None) (Ok tt) w1.
Proof.
  unfold async_with. cbn.
  destruct (on_await d X (trace w) aenter) as [x|e] eqn:Hx; cbn; [|discriminate].
  rewrite run_bind, run_attempt.
  destruct (run d (body x) (reply aenter (Ok x) w)) as [[a'|e] w1] eqn:Hb; cbn.
  - destruct (on_await d unit (trace w1) (aexit None)) as [[]|e]; cbn;
      [|discriminate].
    intros [= <- <-]. exists x, w1. repeat split; assumption.
  - destruct (on_await d unit (trace w1) (aexit (Some e))) as [[]|e']; cbn;
      discriminate.
Qed.

#[local] Arguments async_with : simpl never.

Section RowCount.
Context {St : Type} `{Client St}.
Variable d : Driver.

(** What the rows of a view are: fetched when the result holds tuples,
    none otherwise. *)
Lemma run_execute_query_body_ok (q : string) (v : option (list PyVal))
    (rf : PyVal) (w w' : World St) (n : Z) (rows : list Row) :
  run d (execute_query_body q v rf) w = (Ok (n, rows), w') ->
  exists cur view,
    In (EvAwait (cursor_execute cur q v) (Ok view)) (trace w') /\
    (forall z, rowcount view = Some z -> z <> 0 -> n = z) /\
    (rowcount view = None \/ rowcount view = Some 0 ->
     forall p, rownumber view = Some p -> p <> 0 -> n = p) /\
    (rowcount view = None \/ rowcount view = Some 0 ->
     rownumber view = None \/ rownumber view = Some 0 -> n = 0) /\
    (pgresult view <> Some TUPLES_OK -> rows = []) /\
    (pgresult view = Some TUPLES_OK ->
     In (EvAwait (cursor_fetchall cur) (Ok rows)) (trace w')).
Proof.
  unfold execute_query_body. cbn [run bind get].
  intros Hrun. cbn in Hrun.
  apply run_async_with_ok in Hrun as (conn & w1 & _ & Hbody & ->).
  rewrite run_bind in Hbody.
  destruct (run d (cursor conn (Some rf)) _) as [[cur|e] w2] eqn:Hcur;
    [|discriminate].
  apply run_async_with_ok in Hbody as ([] & w3 & _ & Hinner & ->).
  cbn in Hinner.
  match type of Hinner with
  | context [on_await d CursorView ?tr ?c] =>
      destruct (on_await d CursorView tr c) as [view|e] eqn:Hview
  end; cbn in Hinner; [|discriminate].
  rewrite run_bind in Hinner.
  match type of Hinner with
  | context [run d (py_int ?x) ?w0] =>
      destruct (run_row_count d view w0) as (n0 & Hn & H1 & H2 & H3);
      rewrite Hn in Hinner
  end.
  exists cur, view.
  destruct (pgresult view) as [status|] eqn:Hpg.
  - destruct status; cbn in Hinner;
      try (injection Hinner as <- <- <-; cbn;
           repeat split; auto; try congruence;
           rewrite !in_app_iff; cbn; tauto).
    match type of Hinner with
    | context [on_await d (list Row) ?tr ?c] =>
        destruct (on_await d (list Row) tr c) as [rs|e] eqn:Hrows
    end; cbn in Hinner; [|discriminate].
    injection Hinner as <- <- <-. cbn.
    repeat split; auto; try congruence;
      rewrite !in_app_iff; cbn; tauto.
  - cbn in Hinner. injection Hinner as <- <- <-. cbn.
    repeat split; auto; try congruence;
      rewrite !in_app_iff; cbn; tauto.
Qed.

End RowCount.

(** C5, as the client has it.  When [execute_query(query, values)]
    returns [(n, rows)], the cursor had executed the query, and with
    what it then reported: [n] is the reported row count when that count
    is a number other than zero (a negative one included); when the
    reported count is [None] or zero, [n] is the reported row position
    if that is a number other than zero; and otherwise [n] is zero. *)
Theorem execute_query_row_count (St : Type) (C : Client St) (d : Driver)
    (q : string) (v : option (list PyVal)) (rf : PyVal)
    (w w' : World St) (n : Z) (rows : list Row) :
  run d (execute_query q v rf) w = (Ok (n, rows), w') ->
  exists cur view,
    In (EvAwait (cursor_execute cur q v) (Ok view)) (trace w') /\
    (forall z, rowcount view = Some z -> z <> 0 -> n = z) /\
    (rowcount view = None \/ rowcount view = Some 0 ->
     forall p, rownumber view = Some p -> p <> 0 -> n = p) /\
    (rowcount view = None \/ rowcount view = Some 0 ->
     rownumber view = None \/ rownumber view = Some 0 -> n = 0).
Proof.
  unfold execute_query. rewrite run_translate_exceptions.
  destruct (run d (execute_query_body q v rf) w) as [[[n' rows']|e] w1] eqn:Hbody;
    [|discriminate].
  intros [= <- <- <-].
  destruct (run_execute_query_body_ok d q v rf w w1 n' rows' Hbody)
    as (cur & view & Hin & H1 & H2 & H3 & _).
  exists cur, view. auto.
Qed.

Lemma execute_query_row_count_witness :
  exists cur view,
    In (EvAwait (cursor_execute cur "SELECT 1" (Some [])) (Ok view))
       (trace (run driver_ok (execute_query "SELECT 1" (Some []) dict_row)
                 (world_of sample_client)).2) /\
    (forall z, rowcount view = Some z -> z <> 0 -> 1 = z) /\
    (rowcount view = None \/ rowcount view = Some 0 ->
     forall p, rownumber view = Some p -> p <> 0 -> 1 = p) /\
    (rowcount view = None \/ rowcount view = Some 0 ->
     rownumber view = None \/ rownumber view = Some 0 -> 1 = 0).
Proof.
  apply (execute_query_row_count _ _ driver_ok "SELECT 1" (Some []) dict_row
           (world_of sample_client)
           (run driver_ok (execute_query "SELECT 1" (Some []) dict_row)
              (world_of sample_client)).2
           1 [{[ "?column?" := VInt 1 ]}]).
  vm_compute. reflexivity.
Defined.

(** C5 as stated fails: a reported count of zero is not what comes
    back when the cursor also reports a row position (five comes back),
    and the -1 psycopg reports for a count it does not know comes back
    as it is, not replaced by the row position nor by zero. *)
Lemma row_count_not_the_reported_one :
  (run driver_zero_count (execute_query "SELECT 1" None dict_row)
     (world_of sample_client)).1 = Ok (5, []) /\
  (run driver_unknown_count (execute_query "CREATE TABLE t (id int)" None dict_row)
     (world_of sample_client)).1 = Ok (-1, []).
Proof. split; vm_compute; reflexivity. Qed.

(** ** Closing and expiring the pool *)

Section Close.
Import PsycopgClientObj.
Variable d : Driver.

(** After its [await], [_close] only logs: it awaits nothing more and
    writes nothing to the client. *)
Lemma close_after_await (r : Outcome unit) (w2 : World t) :
  exists res w3,
    segment d (lift r ;;;
               self' <- get ;;
               template <- PsycopgClient.template_arg self' ;;
               debug "Closed connection pool %s with params: %s"
                 [PsycopgClient.pool_arg (_pool self'); VDict template]) w2
    = Finished res w3 /\ obj w3 = obj w2.
Proof.
  destruct r as [[]|e]; cbn.
  - unfold PsycopgClient.template_arg.
    destruct (_template (obj w2)); cbn; eauto.
  - eauto.
Qed.

End Close.

(** C7.  With a pool, [_close()] runs up to its only suspension, the
    awaited [pool.close(10)] on the pool it saved, having already set
    the client's pool reference to [None] and called nothing yet: that
    is the client any task interleaved with the close finds.  Resumed in
    whatever world, it finishes without a further suspension and without
    writing to the client.  Without a pool, [_close()] returns at once
    and changes nothing. *)
Theorem close_nulls_pool_first (d : Driver) (w : World PsycopgClientObj.t) :
  (forall pool, PsycopgClientObj._pool (obj w) = Some pool ->
     exists k,
       segment d PsycopgClient._close w =
         Suspended (pool_close pool (Some (VInt 10))) k
           (mkWorld (PsycopgClientObj.set__pool None (obj w)) (next_id w) (trace w)) /\
       PsycopgClientObj._pool (PsycopgClientObj.set__pool None (obj w)) = None /\
       forall r w2, exists res w3,
         segment d (k r) w2 = Finished res w3 /\ obj w3 = obj w2) /\
  (PsycopgClientObj._pool (obj w) = None ->
     segment d PsycopgClient._close w = Finished (Ok tt) w /\
     run d PsycopgClient._close w = (Ok tt, w)).
Proof.
  split.
  - intros pool Hpool. unfold PsycopgClient._close. cbn. rewrite Hpool. cbn.
    eexists. split; [reflexivity|]. split; [reflexivity|].
    intros r w2. apply close_after_await.
  - intros Hpool. unfold PsycopgClient._close. cbn. rewrite Hpool. auto.
Qed.

Lemma close_nulls_pool_first_witness :
  exists k,
    segment driver_ok PsycopgClient._close (world_of pooled_client) =
      Suspended (pool_close 3%nat (Some (VInt 10))) k
        (mkWorld (PsycopgClientObj.set__pool None pooled_client) 10%nat []) /\
    PsycopgClientObj._pool (PsycopgClientObj.set__pool None pooled_client) = None /\
    forall r w2, exists res w3,
      segment driver_ok (k r) w2 = Finished res w3 /\ obj w3 = obj w2.
Proof.
  apply (proj1 (close_nulls_pool_first driver_ok (world_of pooled_client)) 3%nat).
  reflexivity.
Defined.

Section Expire.
Import PsycopgClientObj.
Variable d : Driver.

(** [_expire_connections] up to its first suspension: the close of the
    current pool, with the client untouched. *)
Lemma expire_first_segment (w : World t) (pool : PoolRef) :
  _pool (obj w) = Some pool ->
  segment d PsycopgClient._expire_connections w =
  Suspended (pool_close pool None)
    (fun r => bind (lift r) (fun _ =>
              self' <- get ;;
              template <- PsycopgClient.template_arg self' ;;
              pool' <- PsycopgClient.create_pool template ;;
              modify (set__pool (Some pool'))))
    w.
Proof.
  intros Hpool. unfold PsycopgClient._expire_connections. cbn.
  rewrite Hpool. reflexivity.
Qed.

(** From the return of the close to the second suspension: the new pool
    is constructed from the stored template, the client still untouched;
    the client's pool reference is written when the opening returns. *)
Lemma expire_second_segment (w2 : World t) (template : gmap string PyVal) :
  _template (obj w2) = Some template ->
  template !! "open" = None ->
  on_new d (trace w2) (new_AsyncConnectionPool template) = None ->
  exists k2,
    segment d (bind (lift (Ok tt)) (fun _ =>
               self' <- get ;;
               template <- PsycopgClient.template_arg self' ;;
               pool' <- PsycopgClient.create_pool template ;;
               modify (set__pool (Some pool')))) w2 =
    Suspended (pool_open (next_id w2) None None) k2 (constructed template w2) /\
    (forall w3, segment d (k2 (Ok tt)) w3 =
       Finished (Ok tt)
         (mkWorld (set__pool (Some (next_id w2)) (obj w3)) (next_id w3) (trace w3))) /\
    (forall e w3, segment d (k2 (Err e)) w3 = Finished (Err e) w3).
Proof.
  intros Htemplate Hopen Hnew. cbn. unfold PsycopgClient.template_arg.
  rewrite Htemplate. cbn. unfold PsycopgClient.create_pool. rewrite Hopen.
  cbn. unfold do_new. rewrite Hnew.
  eexists. split; [reflexivity|]. split; reflexivity.
Qed.

Lemma run_expire_ok (w w' : World t) (pool : PoolRef) :
  _pool (obj w) = Some pool ->
  run d PsycopgClient._expire_connections w = (Ok tt, w') ->
  exists template,
    _template (obj w) = Some template /\
    w' = mkWorld (set__pool (Some (next_id w)) (obj w)) (S (next_id w))
           (trace w ++ [EvAwait (pool_close pool None) (Ok tt);
                        EvNew (new_AsyncConnectionPool template) (Ok (next_id w));
                        EvAwait (pool_open (next_id w) None None) (Ok tt)]).
Proof.
  intros Hpool. unfold PsycopgClient._expire_connections. cbn.
  rewrite Hpool. cbn.
  destruct (on_await d unit (trace w) (pool_close pool None)) as [[]|e]; cbn;
    [|discriminate].
  unfold PsycopgClient.template_arg.
  destruct (_template (obj w)) as [template|]; cbn; [|discriminate].
  unfold PsycopgClient.create_pool.
  destruct (template !! "open"); cbn; [discriminate|].
  unfold do_new. cbn.
  destruct (on_new d _ (new_AsyncConnectionPool template)); cbn; [discriminate|].
  match goal with
  | |- context [on_await d unit ?tr ?c] =>
      destruct (on_await d unit tr c) as [[]|e]
  end; cbn; [|discriminate].
  intros [= <-]. exists template. split; [reflexivity|].
  rewrite <- !app_assoc. reflexivity.
Qed.

End Expire.

(** C8, as the client has it.  With a pool, [_expire_connections()]
    first awaits the close of the current pool, the client untouched:
    the pool being closed is still the client's current pool.  When the
    close has returned it constructs a new pool from the stored template
    and awaits its opening, the client still untouched; only when that
    opening has returned does it write the new pool into the client.
    Run alone to a normal end, it has closed the old pool, then built
    and opened a new pool, a new object, from the stored template, and
    left it as the client's pool. *)
Theorem expire_swaps_pool_after_close (d : Driver)
    (w : World PsycopgClientObj.t) (pool : PoolRef) :
  PsycopgClientObj._pool (obj w) = Some pool ->
  (exists k,
     segment d PsycopgClient._expire_connections w
       = Suspended (pool_close pool None) k w /\
     (forall e w2, segment d (k (Err e)) w2 = Finished (Err e) w2) /\
     (forall w2 template,
        PsycopgClientObj._template (obj w2) = Some template ->
        template !! "open" = None ->
        on_new d (trace w2) (new_AsyncConnectionPool template) = None ->
        exists k2,
          segment d (k (Ok tt)) w2 =
            Suspended (pool_open (next_id w2) None None) k2
              (constructed template w2) /\
          obj (constructed template w2) = obj w2 /\
          (forall w3, segment d (k2 (Ok tt)) w3 =
             Finished (Ok tt)
               (mkWorld (PsycopgClientObj.set__pool (Some (next_id w2)) (obj w3))
                  (next_id w3) (trace w3))) /\
          (forall e w3, segment d (k2 (Err e)) w3 = Finished (Err e) w3))) /\
  (forall w', run d PsycopgClient._expire_connections w = (Ok tt, w') ->
     exists template,
       PsycopgClientObj._template (obj w) = Some template /\
       PsycopgClientObj._pool (obj w') = Some (next_id w) /\
       trace w' =
         (trace w ++ [EvAwait (pool_close pool None) (Ok tt);
                      EvNew (new_AsyncConnectionPool template) (Ok (next_id w));
                      EvAwait (pool_open (next_id w) None None) (Ok tt)])%list).
Proof.
  intros Hpool. split.
  - eexists. split; [apply (expire_first_segment d w pool Hpool)|].
    split; [reflexivity|].
    intros w2 template Htemplate Hopen Hnew.
    destruct (expire_second_segment d w2 template Htemplate Hopen Hnew)
      as (k2 & Hseg & Hok & Herr).
    exists k2. repeat split; assumption.
  - intros w' Hrun.
    destruct (run_expire_ok d w w' pool Hpool Hrun) as (template & Ht & ->).
    exists template. repeat split; assumption.
Qed.

Lemma expire_swaps_pool_after_close_witness :
  exists template,
    PsycopgClientObj._template (obj (world_of pooled_client)) = Some template /\
    PsycopgClientObj._pool
      (obj (run driver_ok PsycopgClient._expire_connections
              (world_of pooled_client)).2) = Some 10%nat /\
    trace (run driver_ok PsycopgClient._expire_connections
             (world_of pooled_client)).2 =
      [EvAwait (pool_close 3%nat None) (Ok tt);
       EvNew (new_AsyncConnectionPool template) (Ok 10%nat);
       EvAwait (pool_open 10%nat None None) (Ok tt)].
Proof.
  apply (proj2 (expire_swaps_pool_after_close driver_ok (world_of pooled_client)
                  3%nat eq_refl)
           (run driver_ok PsycopgClient._expire_connections
              (world_of pooled_client)).2).
  vm_compute. reflexivity.
Defined.

(** C8 as stated fails: while [_expire_connections()] is suspended on
    the opening of the new pool, the close of the old pool (object 3)
    has returned and that pool is still the client's current pool. *)
Lemma expire_exposes_closed_pool :
  exists k k2 w3,
    segment driver_ok PsycopgClient._expire_connections (world_of pooled_client)
      = Suspended (pool_close 3%nat None) k (world_of pooled_client) /\
    segment driver_ok (k (Ok tt))
        (reply (pool_close 3%nat None) (Ok tt) (world_of pooled_client))
      = Suspended (pool_open 10%nat None None) k2 w3 /\
    PsycopgClientObj._pool (obj w3) = Some 3%nat /\
    closed 3%nat (trace w3) = true.
Proof.
  destruct (expire_second_segment driver_ok
              (reply (pool_close 3%nat None) (Ok tt) (world_of pooled_client))
              (built_template sample_client true))
    as (k2 & Hseg & _); try (vm_compute; reflexivity).
  eexists _, k2, _. split; [apply expire_first_segment; reflexivity|].
  split; [exact Hseg|]. split; vm_compute; reflexivity.
Qed.

(** * Further properties of the client *)

(** ** Scoped blocks and handlers *)

Lemma run_try_except {St A} (d : Driver) (m : Coro St A)
    (h : Exc -> option (Coro St A)) (w : World St) :
  run d (try_except m h) w =
  match run d m w with
  | (Ok a, w') => (Ok a, w')
  | (Err e, w') =>
      match h e with
      | Some m' => run d m' w'
      | None => (Err e, w')
      end
  end.
Proof.
  revert w. induction m as [a|e|k IH|s k IH|c k IH|fmt args k IH|R c k IH];
    intros w; cbn; auto.
  - destruct (h e); reflexivity.
  - destruct (do_new d c w) as [r w']. apply IH.
Qed.

(** How a scoped block runs: enter, body, and an exit that is told how
    the body ended; the exception of a raising exit replaces the
    outcome of the body. *)
Lemma run_async_with {St X A} (d : Driver) (aenter : Call X)
    (aexit : option Exc -> Call unit) (body : X -> Coro St A) (w : World St) :
  run d (async_with aenter aexit body) w =
  match on_await d X (trace w) aenter with
  | Err e => (Err e, reply aenter (Err e) w)
  | Ok x =>
      let rw := run d (body x) (reply aenter (Ok x) w) in
      match on_await d unit (trace rw.2) (aexit (exc_of rw.1)) with
      | Ok u => (rw.1, reply (aexit (exc_of rw.1)) (Ok u) rw.2)
      | Err e => (Err e, reply (aexit (exc_of rw.1)) (Err e) rw.2)
      end
  end.
Proof.
  unfold async_with. cbn.
  destruct (on_await d X (trace w) aenter) as [x|e]; cbn; [|reflexivity].
  rewrite run_bind, run_attempt.
  destruct (run d (body x) (reply aenter (Ok x) w)) as [r w1]. cbn.
  fold (exc_of r).
  destruct (on_await d unit (trace w1) (aexit (exc_of r))) as [u|e]; cbn;
    [|reflexivity].
  destruct r; reflexivity.
Qed.

(** ** Every acquisition is released *)

#[local] Arguments count : simpl never.

Lemma count_snoc (f : Event -> bool) (tr : list Event) (ev : Event) :
  count f (tr ++ [ev]) = (count f tr + (if f ev then 1 else 0))%nat.
Proof.
  unfold count. rewrite List.filter_app, length_app. cbn.
  destruct (f ev); reflexivity.
Qed.

Lemma silent_run (f : Event -> bool) {St A} (d : Driver) (m : Coro St A)
    (w : World St) :
  silent f m -> count f (trace (run d m w).2) = count f (trace w).
Proof.
  intros Hm. revert w.
  induction Hm as [a|e|k _ IH|s k _ IH|c k Hc _ IH|fmt args k Hl _ IH|R c k Hc _ IH];
    intros w; cbn; auto.
  - rewrite IH. reflexivity.
  - unfold do_new. destruct (on_new d (trace w) c); cbn;
      rewrite IH; cbn; rewrite count_snoc, Hc; lia.
  - rewrite IH. cbn. rewrite count_snoc, Hl. lia.
  - rewrite IH. cbn. rewrite count_snoc, Hc. lia.
Qed.

Lemma silent_bind (f : Event -> bool) {St A B} (m : Coro St A)
    (k : A -> Coro St B) :
  silent f m -> (forall a, silent f (k a)) -> silent f (bind m k).
Proof. intros Hm Hk. induction Hm; cbn; auto; constructor; auto. Qed.

Lemma silent_lift (f : Event -> bool) {St A} (r : Outcome A) :
  silent f (St := St) (lift r).
Proof. destruct r; constructor. Qed.

Lemma silent_await (f : Event -> bool) {St R} (c : Call R) :
  (forall r, f (EvAwait c r) = false) -> silent f (St := St) (await c).
Proof. intros Hc. constructor; [exact Hc|]. intros r. apply silent_lift. Qed.

Lemma silent_balanced (f g : Event -> bool) {St A} (m : Coro St A) :
  silent f m -> silent g m -> balanced f g m.
Proof.
  intros Hf Hg d w. exists 0%nat.
  rewrite (silent_run f), (silent_run g) by assumption. lia.
Qed.

Lemma balanced_bind (f g : Event -> bool) {St A B} (m : Coro St A)
    (k : A -> Coro St B) :
  silent f m -> silent g m -> (forall a, balanced f g (k a)) ->
  balanced f g (bind m k).
Proof.
  intros Hf Hg Hk d w. rewrite run_bind.
  pose proof (silent_run f d m w Hf) as Ef.
  pose proof (silent_run g d m w Hg) as Eg.
  destruct (run d m w) as [[a|e] w1]; cbn in *.
  - destruct (Hk a d w1) as (n & Hn & H1 & H2). exists n. rewrite H1, H2. lia.
  - exists 0%nat. lia.
Qed.

(** A scoped block whose body is balanced, and whose own enter and exit
    are not counted, is balanced. *)
Lemma balanced_async_with_outside (f g : Event -> bool) {St X A}
    (aenter : Call X) (aexit : option Exc -> Call unit) (body : X -> Coro St A) :
  (forall r, f (EvAwait aenter r) = false) ->
  (forall r, g (EvAwait aenter r) = false) ->
  (forall exc r, f (EvAwait (aexit exc) r) = false) ->
  (forall exc r, g (EvAwait (aexit exc) r) = false) ->
  (forall x, balanced f g (body x)) ->
  balanced f g (async_with aenter aexit body).
Proof.
  intros Hfe Hge Hfx Hgx Hbody d w. rewrite run_async_with.
  destruct (on_await d X (trace w) aenter) as [x|e] eqn:Hx; cbn.
  - destruct (Hbody x d (reply aenter (Ok x) w)) as (n & Hn & H1 & H2).
    cbn in H1, H2. rewrite !count_snoc, Hfe in H1. rewrite !count_snoc, Hge in H2.
    exists n. split; [exact Hn|].
    destruct (on_await d unit _ _); cbn; rewrite !count_snoc, ?Hfx, ?Hgx; lia.
  - exists 0%nat. rewrite !count_snoc, Hfe, Hge. lia.
Qed.

(** A scoped block whose successful enter is what [f] counts, whose exit
    is what [g] counts, and whose body is silent, is balanced. *)
Lemma balanced_async_with (f g : Event -> bool) {St X A}
    (aenter : Call X) (aexit : option Exc -> Call unit) (body : X -> Coro St A) :
  (forall r, f (EvAwait aenter r) = succeeded r) ->
  (forall r, g (EvAwait aenter r) = false) ->
  (forall exc r, f (EvAwait (aexit exc) r) = false) ->
  (forall exc r, g (EvAwait (aexit exc) r) = true) ->
  (forall x, silent f (body x)) -> (forall x, silent g (body x)) ->
  balanced f g (async_with aenter aexit body).
Proof.
  intros Hfe Hge Hfx Hgx Hf Hg d w. rewrite run_async_with.
  destruct (on_await d X (trace w) aenter) as [x|e] eqn:Hx; cbn.
  - pose proof (silent_run f d (body x) (reply aenter (Ok x) w) (Hf x)) as Ef.
    pose proof (silent_run g d (body x) (reply aenter (Ok x) w) (Hg x)) as Eg.
    cbn in Ef, Eg. rewrite count_snoc, Hfe in Ef. rewrite count_snoc, Hge in Eg.
    cbn in Ef. exists 1%nat. split; [lia|].
    destruct (on_await d unit _ _); cbn; rewrite !count_snoc, ?Hfx, ?Hgx; lia.
  - exists 0%nat. rewrite !count_snoc, Hfe, Hge. cbn. lia.
Qed.

Lemma silent_attempt (f : Event -> bool) {St A} (m : Coro St A) :
  silent f m -> silent f (attempt m).
Proof. induction 1; cbn; constructor; auto. Qed.

Lemma run_translate_exceptions_world {St A} (d : Driver) (m : Coro St A)
    (w : World St) :
  (run d (translate_exceptions m) w).2 = (run d m w).2.
Proof.
  rewrite run_translate_exceptions. destruct (run d m w) as [[a|e] w']; reflexivity.
Qed.

Lemma silent_py_int (f : Event -> bool) {St} (v : PyVal) :
  silent f (St := St) (py_int v).
Proof. destruct v; constructor. Qed.

Ltac silent_tac :=
  repeat (intros;
    match goal with
    | |- silent _ (bind _ _) => apply silent_bind
    | |- silent _ (await _) => apply silent_await; intros; reflexivity
    | |- silent _ (lift _) => apply silent_lift
    | |- silent _ (py_int _) => apply silent_py_int
    | |- silent _ (cursor ?c _) => is_var c; destruct c; cbn
    | |- silent _ (match pgresult ?v with _ => _ end) => destruct (pgresult v)
    | |- silent _ (if ExecStatus_eqb ?x ?y then _ else _) =>
        destruct (ExecStatus_eqb x y)
    | |- silent _ (async_with _ _ _) => unfold async_with
    | |- silent _ (attempt _) => apply silent_attempt
    | |- silent _ _ => constructor
    | |- _ = false => reflexivity
    end).

Section Released.
Context {St : Type} `{Client St}.

Lemma balanced_execute_query_acquire (q : string) (v : option (list PyVal))
    (rf : PyVal) :
  balanced is_acquired is_released (execute_query_body q v rf).
Proof.
  intros d w. unfold execute_query_body. cbn [run bind get].
  apply balanced_async_with; try (intros; reflexivity).
  - silent_tac.
  - silent_tac.
Qed.

Lemma balanced_execute_query_cursor (q : string) (v : option (list PyVal))
    (rf : PyVal) :
  balanced is_cursor_entered is_cursor_exited (execute_query_body q v rf).
Proof.
  intros d w. unfold execute_query_body. cbn [run bind get].
  apply balanced_async_with_outside; try (intros; reflexivity).
  intros connection. apply balanced_bind; [silent_tac..|].
  intros cur. apply balanced_async_with; try (intros; reflexivity).
  - silent_tac.
  - silent_tac.
Qed.

Lemma balanced_execute_many_acquire (q : string) (v : list PyVal) :
  balanced is_acquired is_released (execute_many_body q v).
Proof.
  intros d w. unfold execute_many_body. cbn [run bind get].
  apply balanced_async_with; try (intros; reflexivity).
  - silent_tac.
  - silent_tac.
Qed.

Lemma balanced_execute_many_cursor (q : string) (v : list PyVal) :
  balanced is_cursor_entered is_cursor_exited (execute_many_body q v).
Proof.
  intros d w. unfold execute_many_body. cbn [run bind get].
  apply balanced_async_with_outside; try (intros; reflexivity).
  intros connection. apply balanced_bind; [silent_tac..|].
  intros cur. apply balanced_async_with; try (intros; reflexivity).
  - silent_tac.
  - silent_tac.
Qed.

End Released.

Lemma balanced_translate_exceptions (f g : Event -> bool) {St A} (m : Coro St A) :
  balanced f g m -> balanced f g (translate_exceptions m).
Proof.
  intros Hm d w. rewrite run_translate_exceptions_world. apply Hm.
Qed.

(** X2.  Whatever the driver answers and however the statement ends,
    [execute_query] and [execute_many] call the [__aexit__] of the
    scoped acquisition exactly once for each [__aenter__] of it that
    returned (at most one), and likewise close each cursor they entered:
    no path leaves a connection acquired or a cursor open. *)
Theorem scoped_acquisitions_balanced (St : Type) (C : Client St) (q : string) :
  (forall v rf,
     balanced is_acquired is_released (execute_query q v rf) /\
     balanced is_cursor_entered is_cursor_exited (execute_query q v rf)) /\
  (forall v,
     balanced is_acquired is_released (execute_many q v) /\
     balanced is_cursor_entered is_cursor_exited (execute_many q v)).
Proof.
  split; intros; split; apply balanced_translate_exceptions.
  - apply balanced_execute_query_acquire.
  - apply balanced_execute_query_cursor.
  - apply balanced_execute_many_acquire.
  - apply balanced_execute_many_cursor.
Qed.

(** ** Rows of a query *)

Section Rows.
Context {St : Type} `{Client St}.
Variable d : Driver.

Lemma run_execute_query_body_rows (q : string) (v : option (list PyVal))
    (rf : PyVal) (w w' : World St) (n : Z) (rows : list Row) :
  run d (execute_query_body q v rf) w = (Ok (n, rows), w') ->
  exists cur view,
    In (EvAwait (cursor_execute cur q v) (Ok view)) (trace w') /\
    (pgresult view = Some TUPLES_OK ->
     In (EvAwait (cursor_fetchall cur) (Ok rows)) (trace w') /\
     count is_fetchall (trace w') = (count is_fetchall (trace w) + 1)%nat) /\
    (pgresult view <> Some TUPLES_OK ->
     rows = [] /\ count is_fetchall (trace w') = count is_fetchall (trace w)).
Proof.
  unfold execute_query_body. cbn [run bind get].
  intros Hrun. cbn in Hrun.
  apply run_async_with_ok in Hrun as (conn & w1 & _ & Hbody & ->).
  rewrite run_bind in Hbody.
  destruct conn as [conn|]; cbn in Hbody; [|discriminate].
  unfold do_new in Hbody. cbn in Hbody.
  destruct (on_new d _ (new_cursor conn (Some rf))) as [e|]; cbn in Hbody;
    [discriminate|].
  apply run_async_with_ok in Hbody as ([] & w3 & _ & Hinner & ->).
  cbn in Hinner.
  match type of Hinner with
  | context [on_await d CursorView ?tr ?c] =>
      destruct (on_await d CursorView tr c) as [view|e] eqn:Hview
  end; cbn in Hinner; [|discriminate].
  rewrite run_bind in Hinner.
  match type of Hinner with
  | context [run d (py_int ?x) ?w0] =>
      destruct (run_row_count d view w0) as (n0 & Hn & _);
      rewrite Hn in Hinner
  end.
  exists (next_id w), view.
  destruct (pgresult view) as [status|] eqn:Hpg.
  - destruct status; cbn in Hinner;
      try (injection Hinner as <- <- <-; cbn;
           split; [rewrite !in_app_iff; cbn; tauto|];
           split; [intros [=]|];
           intros _; split; [reflexivity|];
           rewrite !count_snoc; cbn; lia).
    match type of Hinner with
    | context [on_await d (list Row) ?tr ?c] =>
        destruct (on_await d (list Row) tr c) as [rs|e] eqn:Hrows
    end; cbn in Hinner; [|discriminate].
    injection Hinner as <- <- <-. cbn.
    split; [rewrite !in_app_iff; cbn; tauto|].
    split; [|intros Hne; contradiction Hne; reflexivity].
    intros _. split; [rewrite !in_app_iff; cbn; tauto|].
    rewrite !count_snoc. cbn. lia.
  - cbn in Hinner. injection Hinner as <- <- <-. cbn.
    split; [rewrite !in_app_iff; cbn; tauto|].
    split; [intros [=]|].
    intros _. split; [reflexivity|]. rewrite !count_snoc. cbn. lia.
Qed.

End Rows.

(** X3.  When [execute_query] returns [(n, rows)], the cursor executed
    the statement; if the status of its result is [TUPLES_OK] the rows
    are those one [fetchall()] returned, and otherwise [rows] is empty
    and [fetchall()] was not called at all. *)
Theorem execute_query_rows (St : Type) (C : Client St) (d : Driver)
    (q : string) (v : option (list PyVal)) (rf : PyVal)
    (w w' : World St) (n : Z) (rows : list Row) :
  run d (execute_query q v rf) w = (Ok (n, rows), w') ->
  exists cur view,
    In (EvAwait (cursor_execute cur q v) (Ok view)) (trace w') /\
    (pgresult view = Some TUPLES_OK ->
     In (EvAwait (cursor_fetchall cur) (Ok rows)) (trace w') /\
     count is_fetchall (trace w') = (count is_fetchall (trace w) + 1)%nat) /\
    (pgresult view <> Some TUPLES_OK ->
     rows = [] /\ count is_fetchall (trace w') = count is_fetchall (trace w)).
Proof.
  unfold execute_query. rewrite run_translate_exceptions.
  destruct (run d (execute_query_body q v rf) w) as [[[n' rows']|e] w1] eqn:Hbody;
    [|discriminate].
  intros [= <- <- <-].
  exact (run_execute_query_body_rows d q v rf w w1 n' rows' Hbody).
Qed.

Lemma execute_query_rows_witness :
  run driver_command (execute_query "INSERT INTO t VALUES (1), (2), (3)" None dict_row)
    (world_of sample_client)
  = (Ok (3, []),
     (run driver_command
        (execute_query "INSERT INTO t VALUES (1), (2), (3)" None dict_row)
        (world_of sample_client)).2) /\
  exists cur view,
    In (EvAwait (cursor_execute cur "INSERT INTO t VALUES (1), (2), (3)" None)
          (Ok view))
       (trace (run driver_command
                 (execute_query "INSERT INTO t VALUES (1), (2), (3)" None dict_row)
                 (world_of sample_client)).2) /\
    (pgresult view = Some TUPLES_OK ->
     In (EvAwait (cursor_fetchall cur) (Ok []))
        (trace (run driver_command
                  (execute_query "INSERT INTO t VALUES (1), (2), (3)" None dict_row)
                  (world_of sample_client)).2) /\
     count is_fetchall
       (trace (run driver_command
                 (execute_query "INSERT INTO t VALUES (1), (2), (3)" None dict_row)
                 (world_of sample_client)).2)
     = (count is_fetchall (trace (world_of sample_client)) + 1)%nat) /\
    (pgresult view <> Some TUPLES_OK ->
     ([] : list Row) = [] /\
     count is_fetchall
       (trace (run driver_command
                 (execute_query "INSERT INTO t VALUES (1), (2), (3)" None dict_row)
                 (world_of sample_client)).2)
     = count is_fetchall (trace (world_of sample_client))).
Proof.
  assert (E : run driver_command
                (execute_query "INSERT INTO t VALUES (1), (2), (3)" None dict_row)
                (world_of sample_client)
              = (Ok (3, []),
                 (run driver_command
                    (execute_query "INSERT INTO t VALUES (1), (2), (3)" None dict_row)
                    (world_of sample_client)).2))
    by (vm_compute; reflexivity).
  split; [exact E|].
  exact (execute_query_rows _ _ driver_command _ None dict_row
           (world_of sample_client) _ 3 [] E).
Defined.

(** X4.  [execute_insert] and [execute_query_dict] are [execute_query]
    with the default row factory: the same driver calls, the same world
    and the same exception when it raises; [execute_insert] returns the
    first row that came back, or [None] when no row did, and
    [execute_query_dict] returns the rows. *)
Theorem insert_and_dict_follow_execute_query (St : Type) (C : Client St)
    (d : Driver) (w : World St) (q : string) :
  (forall v,
     run d (execute_insert q v) w =
     match run d (execute_query q (Some v) dict_row) w with
     | (Ok (_, rows), w') => (Ok (head rows), w')
     | (Err e, w') => (Err e, w')
     end) /\
  (forall v,
     run d (execute_query_dict q v) w =
     match run d (execute_query q v dict_row) w with
     | (Ok (_, rows), w') => (Ok rows, w')
     | (Err e, w') => (Err e, w')
     end).
Proof.
  split; intros v.
  - unfold execute_insert. rewrite run_bind.
    destruct (run d (execute_query q (Some v) dict_row) w) as [[[n rows]|e] w'];
      [|reflexivity].
    destruct rows; reflexivity.
  - unfold execute_query_dict. rewrite run_bind.
    destruct (run d (execute_query q v dict_row) w) as [[[n rows]|e] w'];
      reflexivity.
Qed.

(** X5.  [db_delete] swallows exactly the driver's [InvalidCatalogName]:
    when the base [db_delete] raises a driver exception of that class,
    [db_delete] returns normally; every other outcome of the base call,
    value or exception, comes out unchanged; the calls made are the base
    call's.  So [db_delete] never raises [InvalidCatalogName]. *)
Theorem db_delete_tolerates_missing_database (St : Type) (d : Driver)
    (super_db_delete : Coro St unit) (w : World St) :
  let base := run d super_db_delete w in
  let result := run d (PsycopgClient.db_delete super_db_delete) w in
  result.2 = base.2 /\
  (forall e, base.1 = Err (Native e) ->
     isinstance e errors.InvalidCatalogName = true -> result.1 = Ok tt) /\
  (forall e, base.1 = Err (Native e) ->
     isinstance e errors.InvalidCatalogName = false -> result.1 = base.1) /\
  (forall exc, base.1 = Err exc -> (forall e, exc <> Native e) ->
     result.1 = base.1) /\
  (forall u, base.1 = Ok u -> result.1 = Ok u) /\
  (forall e, result.1 = Err (Native e) ->
     isinstance e errors.InvalidCatalogName = false).
Proof.
  intros base result. subst result. unfold PsycopgClient.db_delete.
  rewrite run_try_except. fold base.
  destruct base as [[u|exc] w']; cbn.
  - repeat split; try discriminate; auto.
  - destruct exc as [e| | | | |]; cbn;
      try (repeat split; try discriminate; auto; fail).
    destruct (isinstance e errors.InvalidCatalogName) eqn:He; cbn;
      repeat split; try discriminate; auto;
      intros e' [= <-]; congruence.
Qed.

Lemma db_delete_tolerates_missing_database_witness :
  (run driver_ok (PsycopgClient.db_delete (Raise (Native no_such_database)))
     (world_of sample_client)).1 = Ok tt.
Proof.
  exact (proj1 (proj2 (db_delete_tolerates_missing_database _ driver_ok
                         (Raise (Native no_such_database))
                         (world_of sample_client)))
           no_such_database eq_refl eq_refl).
Defined.

(** X6.  Translating twice is translating once: a call wrapped by the
    translator twice (a decorated method calling a decorated method)
    ends as the call wrapped once, with the same world. *)
Theorem translation_is_idempotent (St A : Type) (d : Driver) (m : Coro St A)
    (w : World St) :
  run d (translate_exceptions (translate_exceptions m)) w
  = run d (translate_exceptions m) w.
Proof.
  rewrite (run_translate_exceptions d (translate_exceptions m)).
  rewrite run_translate_exceptions.
  destruct (run d m w) as [[a|e] w']; [reflexivity|].
  rewrite translate_stable. reflexivity.
Qed.

(** ** Beginning and ending a transaction *)



(** X8.  When [begin()] and then [commit()] (or [rollback()]) both
    return normally on a wrapper, the wrapper was bound to a connection,
    the driver was asked for a transaction on that connection, entered
    it, and left that same transaction, told to roll back exactly when
    [rollback()] was called; the wrapper ends finalized. *)
Theorem begin_then_end (d : Driver) (w w' : World TransactionWrapperObj.t)
    (rb : bool) :
  tx_calls d [m_begin; if rb then m_rollback else m_commit] w
    = ([(m_begin, Ok tt); (if rb then m_rollback else m_commit, Ok tt)], w') ->
  exists conn,
    TransactionWrapperObj._connection (obj w) = Some conn /\
    TransactionWrapperObj._finalized (obj w') = true /\
    TransactionWrapperObj._transaction (obj w') = Some (next_id w) /\
    trace w' =
      (trace w ++ [EvNew (new_transaction conn) (Ok (next_id w));
                   EvAwait (transaction_aenter (next_id w)) (Ok tt);
                   EvAwait (transaction_aexit (next_id w) rb) (Ok tt)])%list.
Proof.
  cbn [tx_calls].
  destruct (run d (tx_call m_begin) w) as [r1 w1] eqn:Hbegin.
  destruct (run d (tx_call (if rb then m_rollback else m_commit)) w1)
    as [r2 w2] eqn:Hend.
  intros [= -> Hr2 <-].
  assert (r2 = Ok tt) as -> by (destruct rb; congruence). clear Hr2.
  cbn [tx_call] in Hbegin.
  unfold TransactionWrapper.begin in Hbegin.
  rewrite run_translate_exceptions in Hbegin.
  unfold TransactionWrapper.begin_body in Hbegin. cbn in Hbegin.
  destruct (TransactionWrapperObj._connection (obj w)) as [conn|] eqn:Hconn;
    cbn in Hbegin; [|discriminate].
  unfold do_new in Hbegin.
  destruct (on_new d (trace w) (new_transaction conn)); cbn in Hbegin;
    [destruct (translate e); discriminate|].
  match type of Hbegin with
  | context [on_await d unit ?tr ?c] =>
      destruct (on_await d unit tr c) as [[]|e]
  end; cbn in Hbegin; [|destruct (translate e); discriminate].
  injection Hbegin as <-.
  assert (Hrun : run d (if rb then TransactionWrapper.rollback
                        else TransactionWrapper.commit)
                   {| obj := TransactionWrapperObj.set__transaction
                               (Some (next_id w)) (obj w);
                      next_id := S (next_id w);
                      trace := (trace w ++ [EvNew (new_transaction conn)
                                              (Ok (next_id w))])
                               ++ [EvAwait (transaction_aenter (next_id w))
                                     (Ok tt)] |}
                 = (Ok tt, w2)) by (destruct rb; exact Hend).
  clear Hend. exists conn. split; [reflexivity|].
  destruct rb; rewrite ?run_commit, ?run_rollback in Hrun; cbn in Hrun;
    (destruct (TransactionWrapperObj._finalized (obj w)); [discriminate|]);
    match type of Hrun with
    | context [on_await d unit ?tr ?c] =>
        destruct (on_await d unit tr c) as [[]|e]
    end; try discriminate;
    injection Hrun as <-; cbn; rewrite <- !app_assoc; auto.
Qed.

Lemma begin_then_end_witness :
  exists conn,
    TransactionWrapperObj._connection (obj (world_of sample_wrapper)) = Some conn /\
    TransactionWrapperObj._finalized
      (obj (tx_calls driver_ok [m_begin; m_rollback] (world_of sample_wrapper)).2)
    = true /\
    TransactionWrapperObj._transaction
      (obj (tx_calls driver_ok [m_begin; m_rollback] (world_of sample_wrapper)).2)
    = Some 10%nat /\
    trace (tx_calls driver_ok [m_begin; m_rollback] (world_of sample_wrapper)).2
    = [EvNew (new_transaction conn) (Ok 10%nat);
       EvAwait (transaction_aenter 10%nat) (Ok tt);
       EvAwait (transaction_aexit 10%nat true) (Ok tt)].
Proof.
  apply (begin_then_end driver_ok (world_of sample_wrapper)
           (tx_calls driver_ok [m_begin; m_rollback] (world_of sample_wrapper)).2
           true).
  vm_compute. reflexivity.
Defined.

(** X9.  Every wrapper that [_in_transaction()] builds, on a client or
    on a wrapper (even a finalized one), starts out not started: no
    handle, not finalized.  It takes the connection, the logger and the
    name of the object it is built from, keeps that object as its
    parent, gets a lock that is a new object, and the object it is built
    from is left unchanged.  On a client the context also carries the
    client's pool-initialisation lock. *)
Theorem in_transaction_starts_fresh (d : Driver) :
  (forall (w w' : World PsycopgClientObj.t) ctx,
     run d PsycopgClient._in_transaction w = (Ok ctx, w') ->
     let wr := context_connection ctx in
     ctx = TransactionContextPooled wr (PsycopgClientObj._pool_init_lock (obj w)) /\
     not_started wr /\
     TransactionWrapperObj._parent wr = OfClient (obj w) /\
     TransactionWrapperObj._connection wr = PsycopgClientObj._connection (obj w) /\
     TransactionWrapperObj.log wr = PsycopgClientObj.log (obj w) /\
     TransactionWrapperObj.connection_name wr
       = PsycopgClientObj.connection_name (obj w) /\
     TransactionWrapperObj._lock wr = next_id w /\
     next_id w' = S (next_id w) /\
     obj w' = obj w) /\
  (forall (w w' : World TransactionWrapperObj.t) ctx,
     run d TransactionWrapper._in_transaction w = (Ok ctx, w') ->
     let wr := context_connection ctx in
     ctx = NestedTransactionContext wr /\
     not_started wr /\
     TransactionWrapperObj._parent wr = OfWrapper (obj w) /\
     TransactionWrapperObj._connection wr
       = TransactionWrapperObj._connection (obj w) /\
     TransactionWrapperObj.log wr = TransactionWrapperObj.log (obj w) /\
     TransactionWrapperObj.connection_name wr
       = TransactionWrapperObj.connection_name (obj w) /\
     TransactionWrapperObj._lock wr = next_id w /\
     next_id w' = S (next_id w) /\
     obj w' = obj w).
Proof.
  split.
  - intros w w' ctx.
    unfold PsycopgClient._in_transaction, TransactionWrapper.__init__.
    cbn. unfold do_new. destruct (on_new d (trace w) new_Lock); cbn;
      [discriminate|].
    intros [= <- <-]. cbn. unfold not_started. cbn. repeat split; reflexivity.
  - intros w w' ctx.
    unfold TransactionWrapper._in_transaction, TransactionWrapper.__init__.
    cbn. unfold do_new. destruct (on_new d (trace w) new_Lock); cbn;
      [discriminate|].
    intros [= <- <-]. cbn. unfold not_started. cbn. repeat split; reflexivity.
Qed.

Lemma in_transaction_starts_fresh_witness :
  not_started
    (context_connection
       (TransactionContextPooled
          (TransactionWrapperObj.mk None 10%nat 0%nat "default" None false
             (OfClient sample_client)) 0%nat)).
Proof.
  apply (proj1 (in_transaction_starts_fresh driver_ok)
           (world_of sample_client)
           (mkWorld sample_client 11%nat [EvNew new_Lock (Ok 10%nat)])).
  reflexivity.
Defined.

(** ** What [create_connection] builds *)

Section Built.
Import PsycopgClientObj.

Lemma conninfo_param_of (self : t) (with_db : bool)
    (settings : gmap string PyVal) (k : string) :
  conninfo_param k (PsycopgClient.conninfo_of self with_db settings) =
  kept ((<["host" := host self]> (
         <["port" := port self]> (
         <["user" := user self]> (
         <["password" := password self]> (
         <["dbname" := if with_db
                       then match database self with
                            | Some s => VStr s
                            | None => VNone
                            end
                       else VNone]> settings))))) !! k).
Proof.
  unfold PsycopgClient.conninfo_of, PsycopgClient.make_conninfo, conninfo_param.
  rewrite lookup_omap.
  match goal with |- ?m !! k ≫= _ = _ => destruct (m !! k) as [[]|] end;
    reflexivity.
Qed.

End Built.

(** X10.  The connection parameters [create_connection] hands to
    [make_conninfo]: the database name is given only when [with_db] is
    true and a database is configured; host, port, user and password
    are given unless they are [None]; [options] is the search path of
    the schema when one is configured, and is absent otherwise, whatever
    the server settings held under that name; [application_name] is the
    name configured on the client, and is absent when that is [None],
    whatever the server settings held under that name; every server
    setting under another name than these and the TLS mode is passed as
    it is, unless it is [None]. *)
Theorem conninfo_parameters (self : PsycopgClientObj.t) (with_db : bool) :
  PsycopgClient.keyword_clash (settings_of self) = [] ->
  let param k :=
    conninfo_param k (PsycopgClient.conninfo_of self with_db (settings_of self)) in
  param "dbname" =
    (if with_db then VStr <$> PsycopgClientObj.database self else None) /\
  param "host" = kept (Some (PsycopgClientObj.host self)) /\
  param "port" = kept (Some (PsycopgClientObj.port self)) /\
  param "user" = kept (Some (PsycopgClientObj.user self)) /\
  param "password" = kept (Some (PsycopgClientObj.password self)) /\
  param "options" =
    match PsycopgClientObj.schema self with
    | Some s => if String.eqb s "" then None
                else Some (VStr ("-c search_path=" +:+ s))
    | None => None
    end /\
  param "application_name" = kept (Some (PsycopgClientObj.application_name self)) /\
  (forall k, k ∉ ["host"; "port"; "user"; "password"; "dbname"; "options";
                  "application_name"; "sslmode"] ->
     param k = kept (PsycopgClientObj.server_settings self !! k)).
Proof.
  intros _ param. subst param. cbn beta.
  rewrite !conninfo_param_of.
  split; [|split; [|split; [|split; [|split; [|split; [|split]]]]]].
  - rewrite !lookup_insert_ne by done. rewrite lookup_insert_eq.
    destruct with_db; [|reflexivity].
    destruct (PsycopgClientObj.database self); reflexivity.
  - rewrite lookup_insert_eq. reflexivity.
  - rewrite !lookup_insert_ne by done. rewrite lookup_insert_eq. reflexivity.
  - rewrite !lookup_insert_ne by done. rewrite lookup_insert_eq. reflexivity.
  - rewrite !lookup_insert_ne by done. rewrite lookup_insert_eq. reflexivity.
  - rewrite !lookup_insert_ne by done. unfold settings_of, PsycopgClient.tls_settings.
    assert (Hopt : forall m : gmap string PyVal,
              (if truthy (PsycopgClient.popped_extra self).1
               then if PsycopgClient.verifies_hostname (PsycopgClient.popped_extra self).1
                    then <["sslmode" := VStr "verify-full"]> m
                    else <["sslmode" := VStr "require"]> m
               else m) !! "options" = m !! "options").
    { intros m. destruct (truthy _); [|reflexivity].
      destruct (PsycopgClient.verifies_hostname _);
        rewrite lookup_insert_ne by done; reflexivity. }
    rewrite Hopt. rewrite lookup_insert_ne by done. rewrite lookup_insert_eq.
    destruct (PsycopgClientObj.schema self) as [s|]; [|reflexivity].
    destruct (String.eqb s ""); reflexivity.
  - rewrite !lookup_insert_ne by done. unfold settings_of, PsycopgClient.tls_settings.
    assert (Happ : forall m : gmap string PyVal,
              (if truthy (PsycopgClient.popped_extra self).1
               then if PsycopgClient.verifies_hostname (PsycopgClient.popped_extra self).1
                    then <["sslmode" := VStr "verify-full"]> m
                    else <["sslmode" := VStr "require"]> m
               else m) !! "application_name" = m !! "application_name").
    { intros m. destruct (truthy _); [|reflexivity].
      destruct (PsycopgClient.verifies_hostname _);
        rewrite lookup_insert_ne by done; reflexivity. }
    rewrite Happ. rewrite lookup_insert_eq. reflexivity.
  - intros k Hk. rewrite !not_elem_of_cons in Hk.
    destruct Hk as (? & ? & ? & ? & ? & ? & ? & ? & _).
    rewrite conninfo_param_of.
    rewrite !lookup_insert_ne by congruence.
    unfold settings_of, PsycopgClient.tls_settings.
    assert (Hk' : forall m : gmap string PyVal,
              (if truthy (PsycopgClient.popped_extra self).1
               then if PsycopgClient.verifies_hostname (PsycopgClient.popped_extra self).1
                    then <["sslmode" := VStr "verify-full"]> m
                    else <["sslmode" := VStr "require"]> m
               else m) !! k = m !! k).
    { intros m. destruct (truthy _); [|reflexivity].
      destruct (PsycopgClient.verifies_hostname _);
        rewrite lookup_insert_ne by congruence; reflexivity. }
    rewrite Hk'. rewrite !lookup_insert_ne by congruence. reflexivity.
Qed.

Lemma conninfo_parameters_witness :
  conninfo_param "options"
    (PsycopgClient.conninfo_of schema_client false (settings_of schema_client))
  = Some (VStr "-c search_path=app") /\
  conninfo_param "password"
    (PsycopgClient.conninfo_of schema_client false (settings_of schema_client))
  = None /\
  conninfo_param "dbname"
    (PsycopgClient.conninfo_of schema_client false (settings_of schema_client))
  = None.
Proof.
  assert (Hclash : PsycopgClient.keyword_clash (settings_of schema_client) = [])
    by (vm_compute; reflexivity).
  pose proof (conninfo_parameters schema_client false Hclash)
    as (Hdb & _ & _ & _ & Hpw & Hopt & _).
  split; [exact Hopt|]. split; [exact Hpw|exact Hdb].
Defined.

(** ** The template of the pool *)

Section Template.
Import PsycopgClientObj.

(** What is left of [extra]: the configured entries but [ssl], and a
    timeout. *)
Lemma extra_of_lookup (self : t) (k : string) :
  extra_of self !! k =
  if decide (k = "ssl") then None
  else if decide (k = "timeout")
       then Some (default PsycopgClient.default_timeout (extra self !! "timeout"))
       else extra self !! k.
Proof.
  unfold extra_of, PsycopgClient.popped_extra, PsycopgClient.pop,
    PsycopgClient.setdefault. cbn.
  destruct (decide (k = "ssl")) as [->|Hssl]; [apply lookup_delete_eq|].
  rewrite lookup_delete_ne by congruence.
  destruct (decide (k = "timeout")) as [->|Htime].
  - destruct (extra self !! "timeout") eqn:E; cbn; [exact E|].
    apply lookup_insert_eq.
  - destruct (extra self !! "timeout"); [reflexivity|].
    rewrite lookup_insert_ne by congruence. reflexivity.
Qed.

End Template.

(** X11.  The template [create_connection] stores and builds the pool
    from never carries the [ssl] entry of the configuration; every other
    configured entry of [extra] is in it as configured, also when it
    names one of the entries the client builds ([conninfo], [min_size],
    [max_size], [kwargs], [connection_class]), which it then replaces;
    an entry the client builds that [extra] does not name has the value
    the client built. *)
Theorem template_entries (self : PsycopgClientObj.t) (with_db : bool) :
  let template := built_template self with_db in
  template !! "ssl" = None /\
  (forall k v, k <> "ssl" -> PsycopgClientObj.extra self !! k = Some v ->
     template !! k = Some v) /\
  (PsycopgClientObj.extra self !! "conninfo" = None ->
     template !! "conninfo"
     = Some (PsycopgClient.conninfo_of self with_db (settings_of self))) /\
  (PsycopgClientObj.extra self !! "min_size" = None ->
     template !! "min_size" = Some (PsycopgClientObj.pool_minsize self)) /\
  (PsycopgClientObj.extra self !! "max_size" = None ->
     template !! "max_size" = Some (PsycopgClientObj.pool_maxsize self)) /\
  (PsycopgClientObj.extra self !! "kwargs" = None ->
     template !! "kwargs"
     = Some (VDict (<["autocommit" := VBool true]>
                   (<["row_factory" := dict_row]> ∅)))) /\
  (PsycopgClientObj.extra self !! "connection_class" = None ->
     template !! "connection_class" = Some (VGlobal "psycopg.AsyncConnection")).
Proof.
  intros template. subst template.
  unfold built_template, PsycopgClient.template_of.
  split; [|split; [|split; [|split; [|split; [|split]]]]].
  - apply lookup_union_None_2; [rewrite extra_of_lookup; reflexivity|].
    rewrite !lookup_insert_ne by done. apply lookup_empty.
  - intros k v Hk Hv. apply lookup_union_Some_l.
    rewrite extra_of_lookup. rewrite decide_False by exact Hk.
    destruct (decide (k = "timeout")) as [->|_]; [|exact Hv].
    rewrite Hv. reflexivity.
  - intros Hnone. rewrite lookup_union_r
      by (rewrite extra_of_lookup; cbn; exact Hnone).
    apply lookup_insert_eq.
  - intros Hnone. rewrite lookup_union_r
      by (rewrite extra_of_lookup; cbn; exact Hnone).
    rewrite !lookup_insert_ne by done. apply lookup_insert_eq.
  - intros Hnone. rewrite lookup_union_r
      by (rewrite extra_of_lookup; cbn; exact Hnone).
    rewrite !lookup_insert_ne by done. apply lookup_insert_eq.
  - intros Hnone. rewrite lookup_union_r
      by (rewrite extra_of_lookup; cbn; exact Hnone).
    rewrite !lookup_insert_ne by done. apply lookup_insert_eq.
  - intros Hnone. rewrite lookup_union_r
      by (rewrite extra_of_lookup; cbn; exact Hnone).
    rewrite !lookup_insert_ne by done. apply lookup_insert_eq.
Qed.

Lemma template_entries_witness :
  built_template schema_client true !! "ssl" = None /\
  built_template schema_client true !! "min_size" = Some (VInt 2) /\
  built_template schema_client true !! "max_size" = Some (VInt 5).
Proof.
  pose proof (template_entries schema_client true)
    as (Hssl & Hextra & _ & _ & Hmax & _).
  split; [exact Hssl|]. split.
  - apply Hextra; [discriminate|vm_compute; reflexivity].
  - apply Hmax. vm_compute. reflexivity.
Defined.

(** ** The life of the pool *)

Section PoolLife.
Import PsycopgClientObj.
Variable d : Driver.

(** Without a pool, with keywords that clash, [create_connection] raises
    [TypeError] once the settings are written. *)
Lemma run_create_connection_clash (w : World t) (with_db : bool)
    (k : string) (ks : list string) :
  _pool (obj w) = None ->
  PsycopgClient.keyword_clash (settings_of (obj w)) = k :: ks ->
  exists msg w',
    run d (PsycopgClient.create_connection with_db) w = (Err (TypeError msg), w').
Proof.
  intros Hpool Hclash. unfold PsycopgClient.create_connection.
  rewrite run_translate_exceptions.
  unfold PsycopgClient.create_connection_body. cbn. rewrite Hpool. cbn.
  fold (settings_of (obj w)). rewrite Hclash. cbn. eauto.
Qed.

Lemma run_open_pool_clash (template extra : gmap string PyVal) (w : World t)
    (v : PyVal) :
  template !! "open" = Some v ->
  exists msg, run d (PsycopgClient.open_pool template extra) w
              = (Err (TypeError msg), w).
Proof.
  intros Hopen. unfold PsycopgClient.open_pool, PsycopgClient.create_pool.
  rewrite Hopen. cbn. eauto.
Qed.

Lemma run_create_connection_ok (w w' : World t) (with_db : bool) :
  run d (PsycopgClient.create_connection with_db) w = (Ok tt, w') ->
  _pool (obj w) = None /\
  w' = do_log "Created connection pool %s with params: %s"
         [VObj (next_id w); VDict (built_template (obj w) with_db)]
         (reply (probe (extra_of (obj w)) (prepared with_db w)) (Ok tt)
            (stored (built_template (obj w) with_db) (prepared with_db w))).
Proof.
  intros Hrun.
  destruct (_pool (obj w)) as [p|] eqn:Hpool.
  { rewrite (run_create_connection_pool_exists d w with_db p Hpool) in Hrun.
    discriminate. }
  split; [reflexivity|].
  destruct (PsycopgClient.keyword_clash (settings_of (obj w))) as [|k ks] eqn:Hclash.
  2:{ destruct (run_create_connection_clash w with_db k ks Hpool Hclash)
        as (msg & w1 & E). rewrite E in Hrun. discriminate. }
  rewrite (run_create_connection d w with_db Hpool Hclash) in Hrun.
  destruct (built_template (obj w) with_db !! "open") as [v|] eqn:Hopen.
  { destruct (run_open_pool_clash (built_template (obj w) with_db)
                (extra_of (obj w)) (prepared with_db w) v Hopen) as (msg & E).
    rewrite E in Hrun. discriminate. }
  rewrite (run_open_pool d _ _ _ Hopen) in Hrun.
  destruct (on_new d _ _); [discriminate|].
  destruct (on_await d unit _ (pool_open _ None None)) as [[]|]; [|discriminate].
  destruct (on_await d unit _ (probe _ _)) as [[]|]; [|discriminate].
  injection Hrun as <-. reflexivity.
Qed.

End PoolLife.

(** X12.  When [create_connection(with_db)] returns normally, there was
    no pool before; the client now holds the new pool, a new object,
    the template it was built from and the settings given to
    [make_conninfo]; and the driver was asked, in this order, to
    construct the pool from that template, to open it, and to probe it
    with [wait=True], all three returning, before the one log line. *)
Theorem create_connection_success (d : Driver) (w w' : World PsycopgClientObj.t)
    (with_db : bool) :
  run d (PsycopgClient.create_connection with_db) w = (Ok tt, w') ->
  let template := built_template (obj w) with_db in
  let pool := next_id w in
  PsycopgClientObj._pool (obj w) = None /\
  PsycopgClientObj._pool (obj w') = Some pool /\
  PsycopgClientObj._template (obj w') = Some template /\
  PsycopgClientObj.server_settings (obj w') = settings_of (obj w) /\
  PsycopgClientObj.extra (obj w') = PsycopgClientObj.extra (obj w) /\
  next_id w' = S pool /\
  trace w' =
    (trace w ++ [EvNew (new_AsyncConnectionPool template) (Ok pool);
                 EvAwait (pool_open pool None None) (Ok tt);
                 EvAwait (probe (extra_of (obj w)) (prepared with_db w)) (Ok tt);
                 EvLog "Created connection pool %s with params: %s"
                   [VObj pool; VDict template]])%list.
Proof.
  intros Hrun template pool.
  apply run_create_connection_ok in Hrun as [Hpool ->].
  cbn. rewrite <- !app_assoc. repeat split; auto.
Qed.

Lemma create_connection_success_witness :
  PsycopgClientObj._pool
    (obj (run driver_ok (PsycopgClient.create_connection true)
            (world_of sample_client)).2) = Some 10%nat.
Proof.
  apply (create_connection_success driver_ok (world_of sample_client)
           (run driver_ok (PsycopgClient.create_connection true)
              (world_of sample_client)).2 true).
  vm_compute. reflexivity.
Defined.



(** X14.  However it ends, [_close()] leaves the client without a pool:
    also when the close of the pool raises, the reference is gone.  With
    a pool it awaits [close(10)] on that pool once; a second [_close()]
    then returns at once and calls nothing. *)
Theorem close_always_clears_pool (d : Driver) (w : World PsycopgClientObj.t) :
  let result := run d PsycopgClient._close w in
  PsycopgClientObj._pool (obj result.2) = None /\
  (forall pool, PsycopgClientObj._pool (obj w) = Some pool ->
     exists answer rest,
       trace result.2
       = (trace w ++ EvAwait (pool_close pool (Some (VInt 10))) answer :: rest)%list /\
       (forall ev, In ev rest -> exists fmt args, ev = EvLog fmt args) /\
       (forall e, answer = Err e -> result.1 = Err e)) /\
  (forall d', run d' PsycopgClient._close result.2 = (Ok tt, result.2)).
Proof.
  intros result.
  assert (Hnone : forall (d' : Driver) (w1 : World PsycopgClientObj.t),
            PsycopgClientObj._pool (obj w1) = None ->
            run d' PsycopgClient._close w1 = (Ok tt, w1)).
  { intros d' w1 H1. unfold PsycopgClient._close. cbn. rewrite H1. reflexivity. }
  assert (Hclear : PsycopgClientObj._pool (obj result.2) = None).
  { subst result. unfold PsycopgClient._close. cbn.
    destruct (PsycopgClientObj._pool (obj w)) as [pool|] eqn:Hpool; cbn;
      [|exact Hpool].
    destruct (on_await d unit (trace w) (pool_close pool (Some (VInt 10))))
      as [[]|e]; cbn; [|reflexivity].
    unfold PsycopgClient.template_arg. cbn.
    destruct (PsycopgClientObj._template (obj w)); reflexivity. }
  split; [exact Hclear|]. split; [|intros d'; apply Hnone, Hclear].
  intros pool Hpool. subst result. unfold PsycopgClient._close. cbn.
  rewrite Hpool. cbn.
  destruct (on_await d unit (trace w) (pool_close pool (Some (VInt 10))))
    as [[]|e] eqn:Hanswer; cbn.
  - unfold PsycopgClient.template_arg. cbn.
    destruct (PsycopgClientObj._template (obj w)) as [template|]; cbn.
    + eexists (Ok tt), [_]. split; [rewrite <- app_assoc; reflexivity|].
      split; [|discriminate].
      intros ev [<-|[]]. eauto.
    + exists (Ok tt), []. split; [reflexivity|]. split; [intros ev []|discriminate].
  - exists (Err e), []. split; [reflexivity|]. split; [intros ev []|].
    intros e' [= <-]. reflexivity.
Qed.

Lemma close_always_clears_pool_witness :
  exists answer rest,
    trace (run driver_unreachable PsycopgClient._close (world_of pooled_client)).2
    = (trace (world_of pooled_client)
       ++ EvAwait (pool_close 3%nat (Some (VInt 10))) answer :: rest)%list /\
    (forall ev, In ev rest -> exists fmt args, ev = EvLog fmt args) /\
    (forall e, answer = Err e ->
       (run driver_unreachable PsycopgClient._close (world_of pooled_client)).1
       = Err e).
Proof.
  exact (proj1 (proj2 (close_always_clears_pool driver_unreachable
                         (world_of pooled_client))) 3%nat eq_refl).
Defined.

(** ** Queries whose acquisition fails *)

(** X15.  When the scoped acquisition cannot be entered, [execute_query],
    [execute_insert] and [execute_many] create no cursor and execute
    nothing: the failed [__aenter__] is the only call made, its
    [__aexit__] is not called, and its exception comes out translated. *)
Theorem failed_acquisition_runs_nothing (St : Type) (C : Client St) (d : Driver)
    (w : World St) (q : string) (e : Exc) :
  let aenter := acquire_aenter (acquire_connection (obj w)) in
  on_await d (option ConnRef) (trace w) aenter = Err e ->
  (forall v rf,
     run d (execute_query q v rf) w
     = (Err (default e (translate e)), reply aenter (Err e) w)) /\
  (forall v,
     run d (execute_many q v) w
     = (Err (default e (translate e)), reply aenter (Err e) w)) /\
  (forall v,
     run d (execute_insert q v) w
     = (Err (default e (translate e)), reply aenter (Err e) w)).
Proof.
  intros aenter Henter.
  assert (Hq : forall v rf,
            run d (execute_query q v rf) w
            = (Err (default e (translate e)), reply aenter (Err e) w)).
  { intros v rf. unfold execute_query. rewrite run_translate_exceptions.
    unfold execute_query_body. cbn [run bind get]. rewrite run_async_with.
    fold aenter. rewrite Henter. reflexivity. }
  split; [exact Hq|]. split.
  - intros v. unfold execute_many. rewrite run_translate_exceptions.
    unfold execute_many_body. cbn [run bind get]. rewrite run_async_with.
    fold aenter. rewrite Henter. reflexivity.
  - intros v. unfold execute_insert. rewrite run_bind, Hq. reflexivity.
Qed.

Lemma failed_acquisition_runs_nothing_witness :
  run driver_unreachable (execute_query "SELECT 1" None dict_row)
    (world_of sample_wrapper)
  = (Err (Native connection_refused),
     reply (acquire_aenter (acquire_connection sample_wrapper))
       (Err (Native connection_refused)) (world_of sample_wrapper)).
Proof.
  exact (proj1 (failed_acquisition_runs_nothing _ _ driver_unreachable
                  (world_of sample_wrapper) "SELECT 1"
                  (Native connection_refused) eq_refl) None dict_row).
Defined.

(** ** MySQL indexes *)

(** X16.  [FullTextIndex(...)] fails exactly as the base constructor
    fails; otherwise every attribute but [extra] is as the base
    constructor set it, and [extra] becomes [" WITH PARSER <name>"] when
    a non-empty parser name is given, while without a parser name, or
    with the empty one, the object is exactly the one the base built. *)
Theorem full_text_index_parser (base : indexes.BaseInit)
    (expressions : list PyVal) (fields name : PyVal)
    (parser_name : option string) :
  let built := indexes.FullTextIndex.__init__ base expressions fields name
                 parser_name in
  (forall e, base expressions fields name = Err e -> built = Err e) /\
  (forall self, base expressions fields name = Ok self ->
     exists index,
       built = Ok index /\
       (forall k, k <> "extra" -> index !! k = self !! k) /\
       (forall p, parser_name = Some p -> p <> "" ->
          index !! "extra" = Some (VStr (" WITH PARSER " +:+ p))) /\
       (parser_name = None \/ parser_name = Some "" -> index = self)).
Proof.
  intros built. subst built. unfold indexes.FullTextIndex.__init__. split.
  - intros e ->. reflexivity.
  - intros self ->. destruct parser_name as [p|].
    + cbn. destruct (String.eqb_spec p "") as [->|Hp]; cbn.
      * exists self. split; [reflexivity|]. split; [reflexivity|].
        split; [intros p [= <-] Hne; contradiction|reflexivity].
      * eexists. split; [reflexivity|]. split.
        { intros k Hk. apply lookup_insert_ne. congruence. }
        split.
        { intros p' [= <-] _. apply lookup_insert_eq. }
        intros [[=]|[= ->]]. contradiction.
    + exists self. split; [reflexivity|]. split; [reflexivity|].
      split; [discriminate|reflexivity].
Qed.

Lemma full_text_index_parser_witness :
  exists index : gmap string PyVal,
    indexes.FullTextIndex.__init__ sample_base_init [] (VList [VStr "body"])
      VNone (Some "ngram") = Ok index /\
    index !! "extra" = Some (VStr " WITH PARSER ngram") /\
    index !! "fields" = Some (VList [VStr "body"]).
Proof.
  destruct (proj2 (full_text_index_parser sample_base_init [] (VList [VStr "body"])
                     VNone (Some "ngram")) _ eq_refl)
    as (index & Hbuilt & Hframe & Hextra & _).
  exists index. split; [exact Hbuilt|]. split.
  - apply (Hextra "ngram" eq_refl). discriminate.
  - rewrite Hframe by discriminate. vm_compute. reflexivity.
Defined.

(** ** Which acquisition a client uses *)

Lemma count_silent_translated (f : Event -> bool) {St A} (d : Driver)
    (m : Coro St A) (w : World St) :
  silent f m ->
  count f (trace (run d (translate_exceptions m) w).2) = count f (trace w).
Proof.
  intros Hm. rewrite run_translate_exceptions_world. now apply silent_run.
Qed.

(** X17.  Inside a transaction no statement takes a connection from the
    pool: on a wrapper, [execute_query], [execute_insert] and
    [execute_many] enter no [PoolConnectionWrapper] and check nothing
    out of a pool, and the only [ConnectionWrapper] they enter is the
    one over the wrapper's own lock.  On a pooled client they enter no
    [ConnectionWrapper]. *)
Theorem statements_use_their_own_acquisition (d : Driver) (q : string) :
  (forall (w : World TransactionWrapperObj.t) (f : Event -> bool),
     f = uses_pool \/
     f = enters_other_wrapper (TransactionWrapperObj._lock (obj w)) ->
     (forall v rf,
        count f (trace (run d (execute_query q v rf) w).2) = count f (trace w)) /\
     (forall v,
        count f (trace (run d (execute_insert q v) w).2) = count f (trace w)) /\
     (forall v,
        count f (trace (run d (execute_many q v) w).2) = count f (trace w))) /\
  (forall w : World PsycopgClientObj.t,
     (forall v rf,
        count uses_dedicated (trace (run d (execute_query q v rf) w).2)
        = count uses_dedicated (trace w)) /\
     (forall v,
        count uses_dedicated (trace (run d (execute_insert q v) w).2)
        = count uses_dedicated (trace w)) /\
     (forall v,
        count uses_dedicated (trace (run d (execute_many q v) w).2)
        = count uses_dedicated (trace w))).
Proof.
  split.
  - intros w f Hf.
    assert (Hq : forall v rf,
              count f (trace (run d (execute_query q v rf) w).2)
              = count f (trace w)).
    { intros v rf. unfold execute_query, execute_query_body. cbn [bind get].
      rewrite run_translate_exceptions_world. cbn [run].
      apply silent_run. cbn [acquire_connection TransactionWrapper.client].
      destruct Hf as [-> | ->]; silent_tac;
        cbn; rewrite ?Nat.eqb_refl; reflexivity. }
    split; [exact Hq|]. split.
    + intros v. unfold execute_insert. rewrite run_bind.
      specialize (Hq (Some v) dict_row).
      destruct (run d (execute_query q (Some v) dict_row) w)
        as [[[n rows]|e] w']; [|exact Hq].
      destruct rows; exact Hq.
    + intros v. unfold execute_many, execute_many_body. cbn [bind get].
      rewrite run_translate_exceptions_world. cbn [run].
      apply silent_run. cbn [acquire_connection TransactionWrapper.client].
      destruct Hf as [-> | ->]; silent_tac;
        cbn; rewrite ?Nat.eqb_refl; reflexivity.
  - intros w.
    assert (Hq : forall v rf,
              count uses_dedicated (trace (run d (execute_query q v rf) w).2)
              = count uses_dedicated (trace w)).
    { intros v rf. unfold execute_query, execute_query_body. cbn [bind get].
      rewrite run_translate_exceptions_world. cbn [run].
      apply silent_run. cbn [acquire_connection PsycopgClient.client].
      silent_tac. }
    split; [exact Hq|]. split.
    + intros v. unfold execute_insert. rewrite run_bind.
      specialize (Hq (Some v) dict_row).
      destruct (run d (execute_query q (Some v) dict_row) w)
        as [[[n rows]|e] w']; [|exact Hq].
      destruct rows; exact Hq.
    + intros v. unfold execute_many, execute_many_body. cbn [bind get].
      rewrite run_translate_exceptions_world. cbn [run].
      apply silent_run. cbn [acquire_connection PsycopgClient.client].
      silent_tac.
Qed.

Lemma statements_use_their_own_acquisition_witness :
  count uses_pool
    (trace (run driver_ok (execute_query "SELECT 1" None dict_row)
              (world_of sample_wrapper)).2)
  = count uses_pool (trace (world_of sample_wrapper)).
Proof.
  exact (proj1 (proj1 (statements_use_their_own_acquisition driver_ok "SELECT 1")
                  (world_of sample_wrapper) uses_pool (or_introl eq_refl))
           None dict_row).
Defined.

(** ** Expiring the pool: the ways it fails *)

(** X18.  Without a pool [_expire_connections()] returns at once and
    calls nothing.  With a pool, whenever it raises (the close of the
    old pool, a missing template, or the construction or the opening of
    the new pool failed) the client is left unchanged, still holding the
    old pool; the exception of the driver comes out as the driver raised
    it; and a failed close stops the call before anything is built. *)
Theorem failed_expire_keeps_old_pool (d : Driver) (w : World PsycopgClientObj.t) :
  let result := run d PsycopgClient._expire_connections w in
  (PsycopgClientObj._pool (obj w) = None -> result = (Ok tt, w)) /\
  (forall e, result.1 = Err e -> obj result.2 = obj w) /\
  (forall pool e,
     PsycopgClientObj._pool (obj w) = Some pool ->
     on_await d unit (trace w) (pool_close pool None) = Err e ->
     result = (Err e, reply (pool_close pool None) (Err e) w)).
Proof.
  intros result. subst result. unfold PsycopgClient._expire_connections. cbn.
  destruct (PsycopgClientObj._pool (obj w)) as [pool|] eqn:Hpool; cbn.
  - split; [discriminate|].
    destruct (on_await d unit (trace w) (pool_close pool None)) as [[]|e0] eqn:Hclose;
      cbn.
    + split; [|intros pool' e [= <-] H1; rewrite Hclose in H1; discriminate].
      unfold PsycopgClient.template_arg.
      destruct (PsycopgClientObj._template (obj w)) as [template|]; cbn;
        [|reflexivity].
      unfold PsycopgClient.create_pool.
      destruct (template !! "open"); cbn; [reflexivity|].
      unfold do_new. cbn.
      destruct (on_new d _ (new_AsyncConnectionPool template)); cbn;
        [reflexivity|].
      match goal with
      | |- context [on_await d unit ?tr ?c] =>
          destruct (on_await d unit tr c) as [[]|e1]
      end; cbn; [discriminate|reflexivity].
    + split; [reflexivity|]. intros pool' e [= <-] H1.
      rewrite Hclose in H1. injection H1 as <-. reflexivity.
  - split; [reflexivity|]. split; [discriminate|]. intros pool e [=].
Qed.

Lemma failed_expire_keeps_old_pool_witness :
  obj (run driver_open_fails PsycopgClient._expire_connections
         (world_of pooled_client)).2 = pooled_client.
Proof.
  exact (proj1 (proj2 (failed_expire_keeps_old_pool driver_open_fails
                         (world_of pooled_client)))
           (Native connection_refused) eq_refl).
Defined.
